(** * Agent-Adventures: the bounded planning loop and the fixed-automation
      reporters, embedded from the Python sources.

    Sources embedded here:
    - [src/01-ReAct/01-Example/react_weather_agent.py] and its [config.py]
      (module [ReAct]);
    - [src/00-Fixed-Automation/00-Example/weather_agent.py]
      (module [WeatherAgent]);
    - [src/00-Fixed-Automation/00-Dino-Example/dino_agent.py]
      (module [DinoAgent]).

    Conventions of the embedding.
    - A Python value that comes out of [json.loads] is a [pyval]; a Python
      [float] or [int] is an exact rational ([Q]), so rounding, NaN and the
      infinities are outside the model.
    - A method that can raise returns in a state-and-exception monad: the
      state is the agent object together with the positions reached in the
      external world (generation endpoint, clock).
    - The external world is given by oracles that are section variables:
      the outcome of the n-th HTTP request, the n-th reading of the clock,
      and Python's own [json.loads]. *)

From Stdlib Require Import String Ascii List ZArith QArith Lia Lqa
  DecimalString ZifyNat.
From stdpp Require Import base strings list gmap.

Set Default Proof Using "Type".

Local Open Scope string_scope.
Local Open Scope list_scope.

(** ** Python values, exceptions, HTTP outcomes, the clock *)

Module Py.

(** Values as [json.loads] builds them.  A [dict] is the list of its items
    (keys distinct, looked up by first match). *)
#[local] Unset Elimination Schemes.
Inductive pyval : Type :=
| PNone
| PBool (b : bool)
| PNum (q : Q)
| PStr (s : string)
| PList (l : list pyval)
| PDict (d : list (string * pyval)).
#[local] Set Elimination Schemes.

(** Exceptions.  [Exception] carries the message the source gives it; the
    interpreter's own errors carry the name they complain about. *)
Inductive exn : Type :=
| Exception (msg : string)
| AttributeError (attr : string)
| TypeError (what : string)
| KeyError (key : string)
| ValueError (what : string)
| IndexError
| JSONDecodeError
| ConnectionError
| Timeout.

Definition exn_str (e : exn) : string :=
  match e with
  | Exception msg => msg
  | AttributeError a => "object has no attribute '" +:+ a +:+ "'"
  | TypeError w => w
  | KeyError k => "'" +:+ k +:+ "'"
  | ValueError w => w
  | IndexError => "list index out of range"
  | JSONDecodeError => "Expecting value"
  | ConnectionError => "Connection refused"
  | Timeout => "Read timed out"
  end.

(** What a call of [requests.get]/[requests.post] can do: answer with a
    status code, a body ([None] when the body is not JSON) and its text, or
    raise one of the two exceptions the sources name. *)
Inductive http_outcome : Type :=
| HttpResponse (status_code : nat) (json : option pyval) (text : string)
| HttpConnectionError
| HttpTimeout.

(** [datetime.datetime.now()]. *)
Record datetime : Type := {
  year : nat; month : nat; day : nat;
  hour : nat; minute : nat; second : nat; microsecond : nat
}.

Definition string_of_nat (n : nat) : string :=
  NilEmpty.string_of_uint (Nat.to_uint n).

Definition digit (d : nat) : ascii := ascii_of_nat (48 + d).

(** [%02d]-style fields of [strftime]/[isoformat]. *)
Definition pad2 (n : nat) : string :=
  String (digit (n / 10 mod 10)) (String (digit (n mod 10)) EmptyString).

Definition pad4 (n : nat) : string :=
  String (digit (n / 1000 mod 10)) (String (digit (n / 100 mod 10)) (pad2 n)).

Definition pad6 (n : nat) : string :=
  String (digit (n / 100000 mod 10))
    (String (digit (n / 10000 mod 10)) (pad4 n)).

(** [dt.strftime("%Y%m%d_%H%M%S")]. *)
Definition strftime_Ymd_HMS (t : datetime) : string :=
  pad4 (year t) +:+ pad2 (month t) +:+ pad2 (day t) +:+ "_" +:+
  pad2 (hour t) +:+ pad2 (minute t) +:+ pad2 (second t).

(** [dt.isoformat()]: the microseconds are printed only when not zero. *)
Definition isoformat (t : datetime) : string :=
  pad4 (year t) +:+ "-" +:+ pad2 (month t) +:+ "-" +:+ pad2 (day t) +:+ "T" +:+
  pad2 (hour t) +:+ ":" +:+ pad2 (minute t) +:+ ":" +:+ pad2 (second t) +:+
  (if Nat.eqb (microsecond t) 0 then "" else "." +:+ pad6 (microsecond t)).

(** A [datetime] object is valid in these ranges (years of four digits). *)
Definition valid_datetime (t : datetime) : Prop :=
  (1000 <= Z.of_nat (year t) <= 9999)%Z /\
  (1 <= month t <= 12 /\ 1 <= day t <= 31 /\
   hour t <= 23 /\ minute t <= 59 /\ second t <= 59)%nat /\
  (Z.of_nat (microsecond t) <= 999999)%Z.

(** [d.get(k)] on the items of a dict. *)
Fixpoint dict_lookup (k : string) (d : list (string * pyval)) : option pyval :=
  match d with
  | [] => None
  | (k', v) :: d' => if String.eqb k k' then Some v else dict_lookup k d'
  end.

(** [d.get(k, dflt)]. *)
Definition dict_get (d : list (string * pyval)) (k : string) (dflt : pyval)
  : pyval :=
  match dict_lookup k d with Some v => v | None => dflt end.

(** [s.lower()] on ASCII text. *)
Definition lower_ascii (c : ascii) : ascii :=
  let n := nat_of_ascii c in
  if (65 <=? n)%nat && (n <=? 90)%nat then ascii_of_nat (n + 32) else c.

Fixpoint lower (s : string) : string :=
  match s with
  | EmptyString => EmptyString
  | String c s' => String (lower_ascii c) (lower s')
  end.

(** [needle in hay] on strings. *)
Fixpoint str_in (needle hay : string) : bool :=
  String.prefix needle hay ||
  match hay with
  | EmptyString => false
  | String _ hay' => str_in needle hay'
  end.

(** [s.endswith(suffix)]. *)
Definition endswith (s suffix : string) : bool :=
  String.prefix (String.rev suffix) (String.rev s).

(** [os.path.join(a, b)] for a relative [b] on a POSIX system. *)
Definition path_join (a b : string) : string :=
  if String.eqb a "" then b
  else if endswith a "/" then a +:+ b
  else a +:+ "/" +:+ b.

Definition nl : string := String (ascii_of_nat 10) EmptyString.

(** The number a value stands for in arithmetic: [int], [float] and [bool]
    are numbers, everything else is not. *)
Definition as_number (v : pyval) : option Q :=
  match v with
  | PNum q => Some q
  | PBool true => Some 1%Q
  | PBool false => Some 0%Q
  | _ => None
  end.

(** [hash(v)] succeeds, which a dict lookup with key [v] needs. *)
Definition hashable (v : pyval) : bool :=
  match v with
  | PList _ | PDict _ => false
  | _ => true
  end.

(** *** The monad of methods: state, exceptions, and a loop out of fuel *)

Section Monad.
Context {St : Type}.

Inductive Res (A : Type) : Type :=
| Ok (a : A) (s : St)
| Raise (e : exn) (s : St)
| OutOfFuel.
#[global] Arguments Ok {A} a s.
#[global] Arguments Raise {A} e s.
#[global] Arguments OutOfFuel {A}.

Definition M (A : Type) : Type := St -> Res A.

Definition ret {A} (a : A) : M A := fun s => Ok a s.

Definition bind {A B} (m : M A) (k : A -> M B) : M B :=
  fun s => match m s with
           | Ok a s' => k a s'
           | Raise e s' => Raise e s'
           | OutOfFuel => OutOfFuel
           end.

Definition raise {A} (e : exn) : M A := fun s => Raise e s.

(** [try: m  except Exception as e: h e]. *)
Definition try_except {A} (m : M A) (h : exn -> M A) : M A :=
  fun s => match m s with
           | Raise e s' => h e s'
           | r => r
           end.

Definition get_state : M St := fun s => Ok s s.

(** The state a computation ends in, when it ends. *)
Definition final_state {A} (r : Res A) : option St :=
  match r with
  | Ok _ s | Raise _ s => Some s
  | OutOfFuel => None
  end.

End Monad.
#[global] Arguments Res : clear implicits.
#[global] Arguments M : clear implicits.

Notation "x <- m ;; k" := (bind m (fun x => k))
  (at level 20, m at level 99, k at level 200, only parsing).
Notation "' pat <- m ;; k" := (bind m (fun x => match x with pat => k end))
  (at level 20, pat pattern, m at level 99, k at level 200, only parsing).
Notation "m ;;; k" := (bind m (fun _ => k))
  (at level 20, k at level 200, only parsing).

End Py.

(** ** The ReAct weather planner: [react_weather_agent.py] *)

Module ReAct.
Import Py.

(** *** [config.py] *)

Definition DEFAULT_CITY : string := "London".
Definition MAX_PLANNING_ITERATIONS : nat := 5.
Definition PLANNING_CONFIDENCE_THRESHOLD : Q := 7 # 10.

Definition PLANNING_TEMPLATES : list (string * list string) :=
  [ ("outdoor_activity",
      [ "Analyze weather conditions";
        "Identify suitable activities";
        "Plan activity timeline";
        "Prepare contingency plans";
        "Finalize activity plan" ]);
    ("travel_planning",
      [ "Research destination weather";
        "Plan weather-appropriate activities";
        "Pack appropriate clothing";
        "Plan indoor alternatives";
        "Create flexible itinerary" ]);
    ("daily_schedule",
      [ "Check weather forecast";
        "Optimize outdoor activities";
        "Schedule indoor alternatives";
        "Plan weather-dependent tasks";
        "Create flexible schedule" ]) ].

(** [PLANNING_TEMPLATES[k]["steps"]], when [k] is a key. *)
Fixpoint template_steps (k : string) (t : list (string * list string))
  : option (list string) :=
  match t with
  | [] => None
  | (k', steps) :: t' => if String.eqb k k' then Some steps else template_steps k t'
  end.

(** *** The data the agent works on *)

(** The dict [_analyze_weather_conditions] returns. *)
Record WeatherAnalysis : Type := {
  overall_condition : string;
  temperature_range : string;
  humidity_text : string;
  wind_conditions : string;
  planning_recommendation : string
}.

Record Forecast : Type := { f_day : string; f_temp : nat; f_condition : string }.

(** The dict [_get_weather_data] returns. *)
Record WeatherData : Type := {
  wd_location : pyval;
  wd_temperature : nat;
  wd_humidity : nat;
  wd_wind_speed : nat;
  wd_description : string;
  wd_forecast : list Forecast
}.

(** The result of an action: [status] and [success] are always there, the
    other keys depend on the handler. *)
Record ActionResult : Type := {
  r_status : string;
  r_success : bool;
  r_weather_conditions : option WeatherAnalysis;
  r_activities : option (list string);
  r_contingency_plans : option (list string);
  r_message : option string
}.

(** An entry of [plan["completed_steps"]]. *)
Record CompletedStep : Type := {
  cs_step : string;
  cs_step_index : nat;
  cs_result : ActionResult;
  cs_completed_at : string
}.

(** The action dict of [_determine_next_action]. *)
Record Action : Type := {
  a_type : string;
  a_step : option string;
  a_step_index : option nat;
  a_priority : string
}.

(** The list objects behind [plan["completed_steps"]] live in a store, since
    [plan.copy()] copies the reference and not the list. *)
Definition loc : Type := nat.

(** The plan dict.  [weather_conditions] is [None] for the empty dict;
    [completed_at] and [summary] are [None] while the keys are absent. *)
Record Plan : Type := {
  task_type : pyval;
  status : string;
  steps : list string;
  current_step : nat;
  completed_steps : loc;
  weather_conditions : option WeatherAnalysis;
  activities : list string;
  contingency_plans : list string;
  confidence : pyval;
  created_at : string;
  completed_at : option string;
  summary : option string
}.

(** An entry of [self.planning_history]. *)
Record HistoryEntry : Type := {
  h_iteration : nat;
  h_action_result : ActionResult;
  h_plan_state : Plan;
  h_timestamp : string
}.

(** The agent object, the store of its list objects, and how far the run
    has got in the external world.  Of what the program prints, the
    [Next action: ...] lines are kept. *)
Record Agent : Type := {
  current_plan : option Plan;
  planning_iteration : nat;
  planning_history : list HistoryEntry;
  heap : list (list CompletedStep);
  ollama_calls : nat;
  clock_reads : nat;
  printed_actions : list Action
}.

Definition new_agent : Agent :=
  {| current_plan := None; planning_iteration := 0; planning_history := [];
     heap := []; ollama_calls := 0; clock_reads := 0; printed_actions := [] |}.

Abbreviation M := (Py.M Agent).

(** Reading and growing the list object at a location. *)
Definition deref (h : list (list CompletedStep)) (l : loc) : list CompletedStep :=
  default [] (h !! l).

Definition alloc_list : M loc := fun s =>
  Ok (length (heap s))
     {| current_plan := current_plan s; planning_iteration := planning_iteration s;
        planning_history := planning_history s; heap := heap s ++ [[]];
        ollama_calls := ollama_calls s; clock_reads := clock_reads s;
        printed_actions := printed_actions s |}.

Definition list_append (l : loc) (x : CompletedStep) : M unit := fun s =>
  Ok tt
     {| current_plan := current_plan s; planning_iteration := planning_iteration s;
        planning_history := planning_history s;
        heap := <[ l := deref (heap s) l ++ [x] ]> (heap s);
        ollama_calls := ollama_calls s; clock_reads := clock_reads s;
        printed_actions := printed_actions s |}.

Definition set_planning_iteration (n : nat) : M unit := fun s =>
  Ok tt
     {| current_plan := current_plan s; planning_iteration := n;
        planning_history := planning_history s; heap := heap s;
        ollama_calls := ollama_calls s; clock_reads := clock_reads s;
        printed_actions := printed_actions s |}.

Definition history_append (e : HistoryEntry) : M unit := fun s =>
  Ok tt
     {| current_plan := current_plan s; planning_iteration := planning_iteration s;
        planning_history := planning_history s ++ [e]; heap := heap s;
        ollama_calls := ollama_calls s; clock_reads := clock_reads s;
        printed_actions := printed_actions s |}.

Definition set_current_plan (p : Plan) : M unit := fun s =>
  Ok tt
     {| current_plan := Some p; planning_iteration := planning_iteration s;
        planning_history := planning_history s; heap := heap s;
        ollama_calls := ollama_calls s; clock_reads := clock_reads s;
        printed_actions := printed_actions s |}.

Definition print_action (a : Action) : M unit := fun s =>
  Ok tt
     {| current_plan := current_plan s; planning_iteration := planning_iteration s;
        planning_history := planning_history s; heap := heap s;
        ollama_calls := ollama_calls s; clock_reads := clock_reads s;
        printed_actions := printed_actions s ++ [a] |}.

(** Plan updates by key. *)
Definition set_status (v : string) (p : Plan) : Plan :=
  {| task_type := task_type p; status := v; steps := steps p;
     current_step := current_step p; completed_steps := completed_steps p;
     weather_conditions := weather_conditions p; activities := activities p;
     contingency_plans := contingency_plans p; confidence := confidence p;
     created_at := created_at p; completed_at := completed_at p;
     summary := summary p |}.

Definition set_current_step (v : nat) (p : Plan) : Plan :=
  {| task_type := task_type p; status := status p; steps := steps p;
     current_step := v; completed_steps := completed_steps p;
     weather_conditions := weather_conditions p; activities := activities p;
     contingency_plans := contingency_plans p; confidence := confidence p;
     created_at := created_at p; completed_at := completed_at p;
     summary := summary p |}.

Definition set_weather_conditions (v : WeatherAnalysis) (p : Plan) : Plan :=
  {| task_type := task_type p; status := status p; steps := steps p;
     current_step := current_step p; completed_steps := completed_steps p;
     weather_conditions := Some v; activities := activities p;
     contingency_plans := contingency_plans p; confidence := confidence p;
     created_at := created_at p; completed_at := completed_at p;
     summary := summary p |}.

Definition set_activities (v : list string) (p : Plan) : Plan :=
  {| task_type := task_type p; status := status p; steps := steps p;
     current_step := current_step p; completed_steps := completed_steps p;
     weather_conditions := weather_conditions p; activities := v;
     contingency_plans := contingency_plans p; confidence := confidence p;
     created_at := created_at p; completed_at := completed_at p;
     summary := summary p |}.

Definition set_contingency_plans (v : list string) (p : Plan) : Plan :=
  {| task_type := task_type p; status := status p; steps := steps p;
     current_step := current_step p; completed_steps := completed_steps p;
     weather_conditions := weather_conditions p; activities := activities p;
     contingency_plans := v; confidence := confidence p;
     created_at := created_at p; completed_at := completed_at p;
     summary := summary p |}.

Definition set_confidence (v : pyval) (p : Plan) : Plan :=
  {| task_type := task_type p; status := status p; steps := steps p;
     current_step := current_step p; completed_steps := completed_steps p;
     weather_conditions := weather_conditions p; activities := activities p;
     contingency_plans := contingency_plans p; confidence := v;
     created_at := created_at p; completed_at := completed_at p;
     summary := summary p |}.

Definition set_completed_at (v : string) (p : Plan) : Plan :=
  {| task_type := task_type p; status := status p; steps := steps p;
     current_step := current_step p; completed_steps := completed_steps p;
     weather_conditions := weather_conditions p; activities := activities p;
     contingency_plans := contingency_plans p; confidence := confidence p;
     created_at := created_at p; completed_at := Some v;
     summary := summary p |}.

Definition set_summary (v : string) (p : Plan) : Plan :=
  {| task_type := task_type p; status := status p; steps := steps p;
     current_step := current_step p; completed_steps := completed_steps p;
     weather_conditions := weather_conditions p; activities := activities p;
     contingency_plans := contingency_plans p; confidence := confidence p;
     created_at := created_at p; completed_at := completed_at p;
     summary := Some v |}.

(** [min(a, b)] and [max(a, b)] of Python on numbers: the first argument
    unless the second is strictly smaller (larger). *)
Definition py_min (a b : Q) : Q := if Qle_bool a b then a else b.
Definition py_max (a b : Q) : Q := if Qle_bool b a then a else b.

(** *** The methods of [ReActWeatherAgent] *)

Section Methods.

(** The outcome of the n-th request to the generation endpoint. *)
Variable ollama : nat -> http_outcome.
(** [json.loads] on a string: [None] when it raises [JSONDecodeError]. *)
Variable json_loads : string -> option pyval.
(** The n-th reading of [datetime.datetime.now()]. *)
Variable clock : nat -> datetime.
(** Python's [str(v)] and [format(x, ".1%")], used by the summary text. *)
Variable py_str : pyval -> string.
Variable format_percent : Q -> string.

(** [datetime.datetime.now().isoformat()]. *)
Definition now_isoformat : M string := fun s =>
  Ok (isoformat (clock (clock_reads s)))
     {| current_plan := current_plan s; planning_iteration := planning_iteration s;
        planning_history := planning_history s; heap := heap s;
        ollama_calls := ollama_calls s; clock_reads := S (clock_reads s);
        printed_actions := printed_actions s |}.

(** [requests.post(...)] to the generation endpoint: the exceptions of the
    library come out as they are. *)
Definition requests_post : M (nat * option pyval * string) := fun s =>
  let s' :=
    {| current_plan := current_plan s; planning_iteration := planning_iteration s;
       planning_history := planning_history s; heap := heap s;
       ollama_calls := S (ollama_calls s); clock_reads := clock_reads s;
       printed_actions := printed_actions s |} in
  match ollama (ollama_calls s) with
  | HttpResponse status_code body text => Ok (status_code, body, text) s'
  | HttpConnectionError => Raise ConnectionError s'
  | HttpTimeout => Raise Timeout s'
  end.

(** [response.json()]. *)
Definition response_json (body : option pyval) : M pyval :=
  match body with
  | Some v => ret v
  | None => raise JSONDecodeError
  end.

(** [_call_ollama_api]: every failure inside its [try] is raised again as
    an [Exception]; the last handler also wraps the [Exception] raised for a
    status other than 200. *)
Definition _call_ollama_api : M pyval :=
  try_except
    ('(status_code, body, text) <- requests_post ;;
     if Nat.eqb status_code 200 then
       result <- response_json body ;;
       match result with
       | PDict d => ret (dict_get d "response" (PStr ""))
       | _ => raise (AttributeError "get")
       end
     else
       raise (Exception ("Ollama API error: " +:+ string_of_nat status_code +:+
                         " - " +:+ text)))
    (fun e =>
       match e with
       | ConnectionError =>
           raise (Exception
             "Cannot connect to Ollama. Make sure Ollama is running on localhost:11434")
       | Timeout =>
           raise (Exception
             "Ollama request timed out. The model might be too slow or not loaded.")
       | _ => raise (Exception ("Error calling Ollama API: " +:+ exn_str e))
       end).

(** [json.loads(response)]: a [TypeError] unless [response] is a string. *)
Definition loads (response : pyval) : M pyval :=
  match response with
  | PStr s => match json_loads s with
              | Some v => ret v
              | None => raise JSONDecodeError
              end
  | _ => raise (TypeError "the JSON object must be str, bytes or bytearray")
  end.

(** The record [_analyze_task] returns from its [except] branch. *)
Definition default_analysis : pyval :=
  PDict [ ("task_type", PStr "general_weather_planning");
          ("weather_requirements", PStr "moderate_conditions");
          ("time_horizon", PNum 3);
          ("location", PStr DEFAULT_CITY);
          ("constraints", PStr "none");
          ("success_criteria", PStr "successful_activity_completion");
          ("confidence", PNum (1 # 2)) ].

Definition _analyze_task (task_description : string) : M pyval :=
  try_except
    (response <- _call_ollama_api ;;
     analysis <- loads response ;;
     ret analysis)
    (fun _ => ret default_analysis).

(** [v.get(k, dflt)] on a value that may not be a dict. *)
Definition py_get (v : pyval) (k : string) (dflt : pyval) : M pyval :=
  match v with
  | PDict d => ret (dict_get d k dflt)
  | _ => raise (AttributeError "get")
  end.

(** [PLANNING_TEMPLATES.get(task_type, PLANNING_TEMPLATES["outdoor_activity"])]. *)
Definition lookup_template (tt : pyval) : M (list string) :=
  let dflt := default [] (template_steps "outdoor_activity" PLANNING_TEMPLATES) in
  if hashable tt then
    match tt with
    | PStr k => ret (default dflt (template_steps k PLANNING_TEMPLATES))
    | _ => ret dflt
    end
  else raise (TypeError "unhashable type").

Definition _create_initial_plan (task_analysis : pyval) : M Plan :=
  tt <- py_get task_analysis "task_type" (PStr "general_weather_planning") ;;
  template <- lookup_template tt ;;
  l <- alloc_list ;;
  c <- py_get task_analysis "confidence" (PNum (1 # 2)) ;;
  t <- now_isoformat ;;
  ret {| task_type := tt;
         status := "planning";
         steps := template;
         current_step := 0;
         completed_steps := l;
         weather_conditions := None;
         activities := [];
         contingency_plans := [];
         confidence := c;
         created_at := t;
         completed_at := None;
         summary := None |}.

(** The fallback of [_reason_about_current_state]. *)
Definition default_reasoning : pyval :=
  PDict [ ("current_status", PStr "planning_in_progress");
          ("issues_identified", PList []);
          ("next_priorities", PList [PStr "continue_planning"]);
          ("reasoning", PStr "Basic planning continuation");
          ("confidence", PNum (1 # 2)) ].

Definition _reason_about_current_state (plan : Plan) (task_analysis : pyval)
  : M pyval :=
  try_except
    (response <- _call_ollama_api ;;
     reasoning <- loads response ;;
     ret reasoning)
    (fun _ => ret default_reasoning).

Definition _determine_next_action (plan : Plan) (reasoning : pyval) : M Action :=
  let current_step := current_step plan in
  let total_steps := length (steps plan) in
  action <-
    (if (current_step <? total_steps)%nat then
       match steps plan !! current_step with
       | Some next_step =>
           ret {| a_type := "execute_step"; a_step := Some next_step;
                  a_step_index := Some current_step; a_priority := "high" |}
       | None => raise IndexError
       end
     else
       ret {| a_type := "finalize_plan"; a_step := None;
              a_step_index := None; a_priority := "high" |}) ;;
  print_action action ;;;
  ret action.

Definition _get_weather_data (location : pyval) : WeatherData :=
  {| wd_location := location;
     wd_temperature := 22;
     wd_humidity := 65;
     wd_wind_speed := 10;
     wd_description := "partly cloudy";
     wd_forecast :=
       [ {| f_day := "today"; f_temp := 22; f_condition := "partly cloudy" |};
         {| f_day := "tomorrow"; f_temp := 25; f_condition := "sunny" |};
         {| f_day := "day_after"; f_temp := 20; f_condition := "rainy" |} ] |}.

Definition _analyze_weather_conditions (weather_data : WeatherData)
  : WeatherAnalysis :=
  {| overall_condition := wd_description weather_data;
     temperature_range := string_of_nat (wd_temperature weather_data) +:+ "°C";
     humidity_text := string_of_nat (wd_humidity weather_data) +:+ "%";
     wind_conditions := string_of_nat (wd_wind_speed weather_data) +:+ " km/h";
     planning_recommendation :=
       if (15 <? wd_temperature weather_data)%nat
       then "suitable_for_outdoor_activities"
       else "consider_indoor_alternatives" |}.

Definition _select_weather_appropriate_activities
  (weather_conditions : option WeatherAnalysis) (task_analysis : pyval)
  : list string :=
  let recommendation :=
    match weather_conditions with
    | Some w => planning_recommendation w
    | None => ""
    end in
  if str_in "outdoor" recommendation
  then ["hiking"; "picnic"; "outdoor_photography"; "gardening"]
  else ["indoor_museum"; "cooking"; "reading"; "indoor_exercise"].

Definition _create_contingency_plans (plan : Plan) (task_analysis : pyval)
  : list string :=
  [ "Indoor alternative activities";
    "Weather-appropriate clothing recommendations";
    "Flexible timing for outdoor activities";
    "Emergency weather response plan" ].

(** The step handlers change the plan in place and return their result:
    here they return the result and the plan after the change. *)
Definition _execute_weather_step (plan : Plan) (task_analysis : pyval)
  : M (ActionResult * Plan) :=
  location <- py_get task_analysis "location" (PStr DEFAULT_CITY) ;;
  let weather_data := _get_weather_data location in
  let weather_analysis := _analyze_weather_conditions weather_data in
  ret ({| r_status := "weather_analyzed"; r_success := true;
          r_weather_conditions := Some weather_analysis;
          r_activities := None; r_contingency_plans := None;
          r_message := Some "Weather conditions analyzed successfully" |},
       set_weather_conditions weather_analysis plan).

Definition _execute_activity_step (plan : Plan) (task_analysis : pyval)
  : M (ActionResult * Plan) :=
  let acts :=
    _select_weather_appropriate_activities (weather_conditions plan) task_analysis in
  ret ({| r_status := "activities_planned"; r_success := true;
          r_weather_conditions := None;
          r_activities := Some acts; r_contingency_plans := None;
          r_message := Some "Activities planned successfully" |},
       set_activities acts plan).

Definition _execute_contingency_step (plan : Plan) (task_analysis : pyval)
  : M (ActionResult * Plan) :=
  let cps := _create_contingency_plans plan task_analysis in
  ret ({| r_status := "contingencies_planned"; r_success := true;
          r_weather_conditions := None;
          r_activities := None; r_contingency_plans := Some cps;
          r_message := Some "Contingency plans created successfully" |},
       set_contingency_plans cps plan).

Definition _execute_general_step (step : string) (plan : Plan)
  (task_analysis : pyval) : M (ActionResult * Plan) :=
  ret ({| r_status := "step_completed"; r_success := true;
          r_weather_conditions := None;
          r_activities := None; r_contingency_plans := None;
          r_message := Some ("Step '" +:+ step +:+ "' completed successfully") |},
       plan).

(** [action[k]]: a [KeyError] when the key is absent. *)
Definition subscript {A} (k : string) (v : option A) : M A :=
  match v with
  | Some a => ret a
  | None => raise (KeyError k)
  end.

Definition _execute_planning_step (action : Action) (plan : Plan)
  (task_analysis : pyval) : M (ActionResult * Plan) :=
  step <- subscript "step" (a_step action) ;;
  step_index <- subscript "step_index" (a_step_index action) ;;
  '(result, plan) <-
     (if str_in "weather" (lower step) then
        _execute_weather_step plan task_analysis
      else if str_in "activity" (lower step) then
        _execute_activity_step plan task_analysis
      else if str_in "contingency" (lower step) then
        _execute_contingency_step plan task_analysis
      else
        _execute_general_step step plan task_analysis) ;;
  t <- now_isoformat ;;
  list_append (completed_steps plan)
    {| cs_step := step; cs_step_index := step_index;
       cs_result := result; cs_completed_at := t |} ;;;
  ret (result, set_current_step (step_index + 1) plan).

(** [_execute_action]: the class has no method [_finalize_planning], so the
    second branch raises the [AttributeError] of the attribute lookup. *)
Definition _execute_action (action : Action) (plan : Plan)
  (task_analysis : pyval) : M (ActionResult * Plan) :=
  if String.eqb (a_type action) "execute_step" then
    _execute_planning_step action plan task_analysis
  else if String.eqb (a_type action) "finalize_plan" then
    raise (AttributeError "_finalize_planning")
  else
    ret ({| r_status := "unknown_action"; r_success := false;
            r_weather_conditions := None; r_activities := None;
            r_contingency_plans := None; r_message := None |}, plan).

(** [v + 0.1] and [v - 0.1]. *)
Definition add_float (v : pyval) (x : Q) : M Q :=
  match as_number v with
  | Some q => ret (q + x)%Q
  | None => raise (TypeError "unsupported operand type(s)")
  end.

Definition _update_plan_based_on_result (plan : Plan)
  (action_result : ActionResult) : M Plan :=
  let plan :=
    if r_success action_result
    then set_status "planning_in_progress" plan
    else set_status "planning_failed" plan in
  c <- (if r_success action_result
        then (x <- add_float (confidence plan) (1 # 10) ;; ret (py_min x 1))
        else (x <- add_float (confidence plan) (- (1 # 10)) ;; ret (py_max x 0))) ;;
  let plan := set_confidence (PNum c) plan in
  s <- get_state ;;
  t <- now_isoformat ;;
  history_append
    {| h_iteration := planning_iteration s;
       h_action_result := action_result;
       h_plan_state := plan;
       h_timestamp := t |} ;;;
  ret plan.

(** [v >= x] for a float [x]. *)
Definition ge_float (v : pyval) (x : Q) : M bool :=
  match as_number v with
  | Some q => ret (Qle_bool x q)
  | None => raise (TypeError "'>=' not supported")
  end.

(** Truth of a list. *)
Definition nonempty {A} (l : list A) : bool :=
  match l with [] => false | _ => true end.

Definition _is_planning_complete (plan : Plan) : M bool :=
  let all_steps_completed := (length (steps plan) <=? current_step plan)%nat in
  confidence_met <- ge_float (confidence plan) PLANNING_CONFIDENCE_THRESHOLD ;;
  let has_weather := bool_decide (is_Some (weather_conditions plan)) in
  let has_activities := nonempty (activities plan) in
  let has_contingencies := nonempty (contingency_plans plan) in
  let components_complete := has_weather && has_activities && has_contingencies in
  ret (all_steps_completed && confidence_met && components_complete).

Definition weather_to_pyval (w : option WeatherAnalysis) : pyval :=
  match w with
  | None => PDict []
  | Some w =>
      PDict [ ("overall_condition", PStr (overall_condition w));
              ("temperature_range", PStr (temperature_range w));
              ("humidity", PStr (humidity_text w));
              ("wind_conditions", PStr (wind_conditions w));
              ("planning_recommendation", PStr (planning_recommendation w)) ]
  end.

(** [format(v, ".1%")]: numbers only. *)
Definition format_confidence (v : pyval) : M string :=
  match as_number v with
  | Some q => ret (format_percent q)
  | None =>
      match v with
      | PStr _ => raise (ValueError "Unknown format code '%'")
      | _ => raise (TypeError "unsupported format string")
      end
  end.

(** [_generate_plan_summary]: the text after [.strip()].  The plan has all
    the keys the text reads when [_finalize_plan] calls it. *)
Definition _generate_plan_summary (plan : Plan) : M string :=
  s <- get_state ;;
  c <- format_confidence (confidence plan) ;;
  ret ("Weather Planning Summary" +:+ nl +:+
       "=======================" +:+ nl +:+
       "Task Type: " +:+ py_str (task_type plan) +:+ nl +:+
       "Status: " +:+ status plan +:+ nl +:+
       "Confidence: " +:+ c +:+ nl +:+
       "Steps Completed: " +:+
         string_of_nat (length (deref (heap s) (completed_steps plan))) +:+ nl +:+
       nl +:+
       "Weather Conditions: " +:+
         py_str (weather_to_pyval (weather_conditions plan)) +:+ nl +:+
       "Planned Activities: " +:+
         py_str (PList (map PStr (activities plan))) +:+ nl +:+
       "Contingency Plans: " +:+
         py_str (PList (map PStr (contingency_plans plan))) +:+ nl +:+
       nl +:+
       "Plan created at: " +:+ created_at plan +:+ nl +:+
       "Plan completed at: " +:+ default "Unknown" (completed_at plan)).

Definition _finalize_plan (plan : Plan) : M Plan :=
  let plan := set_status "completed" plan in
  t <- now_isoformat ;;
  let plan := set_completed_at t plan in
  text <- _generate_plan_summary plan ;;
  let plan := set_summary text plan in
  set_current_plan plan ;;;
  ret plan.

(** One pass through the body of the [while] loop of
    [_execute_planning_iterations], up to the test of [_is_planning_complete]. *)
Definition planning_cycle (plan : Plan) (task_analysis : pyval)
  : M (Plan * bool) :=
  reasoning <- _reason_about_current_state plan task_analysis ;;
  next_action <- _determine_next_action plan reasoning ;;
  '(action_result, plan) <- _execute_action next_action plan task_analysis ;;
  plan <- _update_plan_based_on_result plan action_result ;;
  complete <- _is_planning_complete plan ;;
  ret (plan, complete).

(** The [while] loop; [fuel] bounds the number of times its condition is
    evaluated. *)
Fixpoint while_planning (fuel : nat) (plan : Plan) (task_analysis : pyval)
  : M Plan :=
  match fuel with
  | O => fun _ => OutOfFuel
  | S fuel' =>
      s <- get_state ;;
      if (planning_iteration s <? MAX_PLANNING_ITERATIONS)%nat then
        '(plan, complete) <- planning_cycle plan task_analysis ;;
        if complete : bool then ret plan
        else
          s <- get_state ;;
          set_planning_iteration (planning_iteration s + 1) ;;;
          while_planning fuel' plan task_analysis
      else ret plan
  end.

Definition _execute_planning_iterations (fuel : nat) (plan : Plan)
  (task_analysis : pyval) : M Plan :=
  set_planning_iteration 0 ;;;
  while_planning fuel plan task_analysis.

Definition plan_weather_activity (fuel : nat) (task_description : string)
  : M Plan :=
  task_analysis <- _analyze_task task_description ;;
  initial_plan <- _create_initial_plan task_analysis ;;
  final_plan <- _execute_planning_iterations fuel initial_plan task_analysis ;;
  finalized_plan <- _finalize_plan final_plan ;;
  ret finalized_plan.

End Methods.

(** *** Vocabulary of the properties *)

(** The agent after one more request to the generation endpoint. *)
Definition bump_calls (s : Agent) : Agent :=
  {| current_plan := current_plan s; planning_iteration := planning_iteration s;
     planning_history := planning_history s; heap := heap s;
     ollama_calls := S (ollama_calls s); clock_reads := clock_reads s;
     printed_actions := printed_actions s |}.

(** The request to the generation endpoint makes [_call_ollama_api] raise:
    no connection, a timeout, a status other than 200, a body that is not
    JSON, a body that is not an object. *)
Inductive call_raises : http_outcome -> Prop :=
| cr_connection : call_raises HttpConnectionError
| cr_timeout : call_raises HttpTimeout
| cr_status c b t : c <> 200%nat -> call_raises (HttpResponse c b t)
| cr_body_not_json t : call_raises (HttpResponse 200 None t)
| cr_body_not_dict v t :
    (forall d, v <> PDict d) -> call_raises (HttpResponse 200 (Some v) t).

(** The request is answered, and the generated text is not valid JSON. *)
Definition invalid_json_response (json_loads : string -> option pyval)
  (o : http_outcome) : Prop :=
  exists d t r,
    o = HttpResponse 200 (Some (PDict d)) t /\
    dict_get d "response" (PStr "") = PStr r /\
    json_loads r = None.


(** The statuses the claim about the status field names. *)
Definition claimed_statuses : list string := ["planning"; "completed"; "failed"].

(** What the methods of one iteration leave unchanged and what they change:
    the shapes of the lemmas about them. *)

(** The keys of the plan no method of the loop writes. *)
Definition same_plan_frame (p p' : Plan) : Prop :=
  task_type p' = task_type p /\ steps p' = steps p /\
  completed_steps p' = completed_steps p /\ created_at p' = created_at p.

Definition step_post (step : string) (idx : nat) (p : Plan) (s : Agent)
  (r : ActionResult) (p' : Plan) (s' : Agent) : Prop :=
  r_success r = true /\
  same_plan_frame p p' /\
  current_step p' = (idx + 1)%nat /\
  confidence p' = confidence p /\
  status p' = status p /\
  planning_iteration s' = planning_iteration s /\
  ollama_calls s' = ollama_calls s /\
  planning_history s' = planning_history s /\
  printed_actions s' = printed_actions s /\
  current_plan s' = current_plan s /\
  exists x, cs_step x = step /\ cs_step_index x = idx /\ cs_result x = r /\
    heap s' = <[ completed_steps p := deref (heap s) (completed_steps p) ++ [x] ]> (heap s).

Definition update_post (p : Plan) (r : ActionResult) (s : Agent)
  (p' : Plan) (s' : Agent) : Prop :=
  (exists c, as_number (confidence p) = Some c /\
     confidence p' = PNum (if r_success r then py_min (c + (1 # 10)) 1
                           else py_max (c + - (1 # 10)) 0)) /\
  status p' = (if r_success r then "planning_in_progress" else "planning_failed") /\
  same_plan_frame p p' /\
  current_step p' = current_step p /\
  weather_conditions p' = weather_conditions p /\
  activities p' = activities p /\
  contingency_plans p' = contingency_plans p /\
  planning_iteration s' = planning_iteration s /\
  ollama_calls s' = ollama_calls s /\
  heap s' = heap s /\
  printed_actions s' = printed_actions s /\
  current_plan s' = current_plan s /\
  exists t, planning_history s' = planning_history s ++
    [ {| h_iteration := planning_iteration s; h_action_result := r;
         h_plan_state := p'; h_timestamp := t |} ].

Definition cycle_post (p : Plan) (s : Agent) (p' : Plan) (b : bool) (s' : Agent)
  : Prop :=
  (current_step p < length (steps p))%nat /\
  same_plan_frame p p' /\
  current_step p' = S (current_step p) /\
  (exists c, as_number (confidence p) = Some c /\
             confidence p' = PNum (py_min (c + (1 # 10)) 1)) /\
  status p' = "planning_in_progress" /\
  planning_iteration s' = planning_iteration s /\
  ollama_calls s' = S (ollama_calls s) /\
  current_plan s' = current_plan s /\
  (exists step, steps p !! current_step p = Some step /\
     printed_actions s' = printed_actions s ++
       [ {| a_type := "execute_step"; a_step := Some step;
            a_step_index := Some (current_step p); a_priority := "high" |} ]) /\
  (exists x, cs_step_index x = current_step p /\
     heap s' = <[ completed_steps p := deref (heap s) (completed_steps p) ++ [x] ]> (heap s)) /\
  (exists r t, r_success r = true /\
     planning_history s' = planning_history s ++
       [ {| h_iteration := planning_iteration s; h_action_result := r;
            h_plan_state := p'; h_timestamp := t |} ]) /\
  (forall s0, _is_planning_complete p' s0 = Ok b s0).

Definition cycle_raise_post (p : Plan) (ta : pyval) (s : Agent) (e : exn)
  (s' : Agent) : Prop :=
  planning_iteration s' = planning_iteration s /\
  ollama_calls s' = S (ollama_calls s) /\
  planning_history s' = planning_history s /\
  (exists a, printed_actions s' = printed_actions s ++ [a] /\
     ((current_step p < length (steps p))%nat -> a_type a = "execute_step")) /\
  ((length (steps p) <= current_step p)%nat /\ e = AttributeError "_finalize_planning"
   \/ (forall d, ta <> PDict d) /\ e = AttributeError "get"
   \/ as_number (confidence p) = None /\ exists w, e = TypeError w).

(** The value [_is_planning_complete] returns on a plan (it does not depend
    on the agent), when it returns. *)
Definition planning_complete (p : Plan) : option bool :=
  match _is_planning_complete p new_agent with
  | Ok b _ => Some b
  | _ => None
  end.


(** The agent with [self.planning_iteration] set. *)
Definition with_iteration (n : nat) (s : Agent) : Agent :=
  {| current_plan := current_plan s; planning_iteration := n;
     planning_history := planning_history s; heap := heap s;
     ollama_calls := ollama_calls s; clock_reads := clock_reads s;
     printed_actions := printed_actions s |}.

(** The action is the one that executes a template step. *)
Definition is_execute_step (a : Action) : Prop := a_type a = "execute_step".

(** What a run of the loop that returns has done, when it starts on a plan
    whose [current_step] is the iteration counter and whose template has as
    many steps as there are iterations: the shipped configuration. *)
Definition loop_post (p : Plan) (s : Agent) (p' : Plan) (s' : Agent) : Prop :=
  let n := (MAX_PLANNING_ITERATIONS - current_step p)%nat in
  same_plan_frame p p' /\
  current_step p' = MAX_PLANNING_ITERATIONS /\
  ollama_calls s' = (ollama_calls s + n)%nat /\
  current_plan s' = current_plan s /\
  length (heap s') = length (heap s) /\
  (exists acts, printed_actions s' = printed_actions s ++ acts /\
     length acts = n /\ Forall is_execute_step acts) /\
  (exists xs, deref (heap s') (completed_steps p)
              = deref (heap s) (completed_steps p) ++ xs /\
     map cs_step_index xs = seq (current_step p) n) /\
  (exists es, planning_history s' = planning_history s ++ es /\
     length es = n /\
     (forall j e, es !! j = Some e -> (S j < n)%nat ->
        planning_complete (h_plan_state e) = Some false) /\
     ((n = 0)%nat -> p' = p /\ s' = s) /\
     ((0 < n)%nat ->
        last (h_plan_state <$> es) = Some p' /\
        (exists c, confidence p' = PNum c) /\
        (planning_complete p' = Some true /\
           S (planning_iteration s') = MAX_PLANNING_ITERATIONS
         \/ planning_complete p' = Some false /\
            planning_iteration s' = MAX_PLANNING_ITERATIONS))).

(** What a run of the loop that raises has done, in the same configuration. *)
Definition loop_raise_post (p : Plan) (ta : pyval) (s : Agent) (e : exn)
  (s' : Agent) : Prop :=
  (exists acts, printed_actions s' = printed_actions s ++ acts /\
     Forall is_execute_step acts) /\
  e <> AttributeError "_finalize_planning" /\
  ((forall d, ta <> PDict d) \/ as_number (confidence p) = None).

(** *** Concrete worlds, for the worked examples *)

Definition t0 : datetime :=
  {| year := 2024; month := 5; day := 17;
     hour := 9; minute := 3; second := 7; microsecond := 0 |}.

(** The generation endpoint is down. *)
Definition offline : nat -> http_outcome := fun _ => HttpConnectionError.
Definition no_json : string -> option pyval := fun _ => None.
Definition frozen_clock : nat -> datetime := fun _ => t0.
Definition no_text : pyval -> string := fun _ => "".
Definition no_percent : Q -> string := fun _ => "".


(** A planning call on a new agent while the generation endpoint is down:
    the plan [_create_initial_plan] builds from the default analysis, and
    the agent at that point (one request made, one reading of the clock).
    And a successful action result. *)
Definition sample_plan : Plan :=
  {| task_type := PStr "general_weather_planning";
     status := "planning";
     steps := [ "Analyze weather conditions"; "Identify suitable activities";
                "Plan activity timeline"; "Prepare contingency plans";
                "Finalize activity plan" ];
     current_step := 0;
     completed_steps := 0;
     weather_conditions := None;
     activities := [];
     contingency_plans := [];
     confidence := PNum (1 # 2);
     created_at := "2024-05-17T09:03:07";
     completed_at := None;
     summary := None |}.

Definition sample_agent : Agent :=
  {| current_plan := None; planning_iteration := 0; planning_history := [];
     heap := [[]]; ollama_calls := 1; clock_reads := 1; printed_actions := [] |}.

Definition sample_result : ActionResult :=
  {| r_status := "step_completed"; r_success := true;
     r_weather_conditions := None; r_activities := None;
     r_contingency_plans := None; r_message := None |}.

Definition weekend_task : string :=
  "Plan a weekend outdoor activity based on weather conditions".

(** *** The accessors of the agent and [main] *)

Section Callers.

Variable ollama : nat -> http_outcome.
Variable json_loads : string -> option pyval.
Variable clock : nat -> datetime.
Variable py_str : pyval -> string.
Variable format_percent : Q -> string.
Variable tags : http_outcome.

Definition get_planning_history : M (list HistoryEntry) :=
  s <- get_state ;;
  ret (planning_history s).

Definition get_current_plan : M (option Plan) :=
  s <- get_state ;;
  ret (current_plan s).

(** [ReActWeatherAgent()]: a new agent object; the store and the external
    world go on. *)
Definition new_agent_object : M unit := fun s =>
  Ok tt
     {| current_plan := None; planning_iteration := 0; planning_history := [];
        heap := heap s; ollama_calls := ollama_calls s;
        clock_reads := clock_reads s; printed_actions := printed_actions s |}.

(** The availability check at the start of [main]: one [requests.get] to
    the tags endpoint, with outcome [tags]; what comes of it only chooses
    what is printed. *)
Definition requests_get_tags : M (nat * option pyval * string) :=
  match tags with
  | HttpResponse status_code body text => ret (status_code, body, text)
  | HttpConnectionError => raise ConnectionError
  | HttpTimeout => raise Timeout
  end.

Definition check_ollama : M unit :=
  try_except
    ('(status_code, _, _) <- requests_get_tags ;; ret tt)
    (fun _ => ret tt).

(** What [main] prints for a task: the lines about the plan, or the line
    [Error planning task: ...]. *)
Inductive TaskReport : Type :=
| Planned (status_line : string) (confidence_line : string)
    (steps_completed : nat) (summary_text : option string)
| PlanningError (e : exn).

(** The body of the loop over the tasks in [main]. *)
Definition plan_and_report (fuel : nat) (task : string) : M TaskReport :=
  try_except
    (plan <- plan_weather_activity ollama json_loads clock py_str format_percent
               fuel task ;;
     c <- format_confidence format_percent (confidence plan) ;;
     s <- get_state ;;
     ret (Planned (status plan) c
            (length (deref (heap s) (completed_steps plan))) (summary plan)))
    (fun e => ret (PlanningError e)).

Fixpoint plan_tasks (fuel : nat) (tasks : list string) : M (list TaskReport) :=
  match tasks with
  | [] => ret []
  | task :: rest =>
      r <- plan_and_report fuel task ;;
      rs <- plan_tasks fuel rest ;;
      ret (r :: rs)
  end.

Definition example_tasks : list string :=
  [ "Plan a weekend outdoor activity based on weather conditions";
    "Create a travel itinerary considering weather forecasts";
    "Optimize my daily schedule based on weather patterns" ].

Definition main (fuel : nat) : M (list TaskReport) :=
  check_ollama ;;;
  new_agent_object ;;;
  plan_tasks fuel example_tasks.

End Callers.

(** *** Vocabulary of the further properties *)

(** A relation between the agent before and after holds for every run of a
    method that ends, whether it returns or raises. *)
Definition preserves {A} (R : Agent -> Agent -> Prop) (m : M A) : Prop :=
  forall s, match final_state (m s) with
            | Some s' => R s s'
            | None => True
            end.

(** The history grew at its end, by entries of successful actions. *)
Definition entry_succeeded (e : HistoryEntry) : Prop :=
  r_success (h_action_result e) = true /\
  status (h_plan_state e) = "planning_in_progress" /\
  exists c, confidence (h_plan_state e) = PNum c /\ (c <= 1)%Q.

Definition history_grows (s s' : Agent) : Prop :=
  exists es, planning_history s' = planning_history s ++ es /\
             Forall entry_succeeded es.

(** [self.current_plan] is the same object. *)
Definition same_current_plan (s s' : Agent) : Prop :=
  current_plan s' = current_plan s.







(** The store has as many lists as before, and all of them but the one at
    [k] are as they were. *)
Definition other_lists_kept (k : loc) (s s' : Agent) : Prop :=
  length (heap s') = length (heap s) /\
  forall l, l <> k -> heap s' !! l = heap s !! l.

(** An agent that has planned before: its store holds the completed steps of
    an earlier plan. *)
Definition agent_with_earlier_plan : Agent :=
  {| current_plan := None; planning_iteration := 5; planning_history := [];
     heap := [ [ {| cs_step := "Analyze weather conditions"; cs_step_index := 0;
                    cs_result := {| r_status := "step_completed"; r_success := true;
                                    r_weather_conditions := None;
                                    r_activities := None;
                                    r_contingency_plans := None;
                                    r_message := None |};
                    cs_completed_at := "2024-05-17T09:03:07" |} ] ];
     ollama_calls := 6; clock_reads := 12; printed_actions := [] |}.







End ReAct.

(** ** The world of the fixed-automation reporters *)

Module Reporter.
Import Py.

(** The file system (path to content) and how far the run has got in the
    external world: HTTP requests made, clock readings taken. *)
Record World : Type := {
  files : gmap string string;
  requests_made : nat;
  clock_reads : nat
}.

Abbreviation M := (Py.M World).

Section Primitives.

(** The outcome of the n-th HTTP request of the process. *)
Variable requests : nat -> http_outcome.
(** The n-th reading of [datetime.datetime.now()]. *)
Variable clock : nat -> datetime.

Definition now : M datetime := fun w =>
  Ok (clock (clock_reads w))
     {| files := files w; requests_made := requests_made w;
        clock_reads := S (clock_reads w) |}.

(** [requests.get] and [requests.post]: the exceptions of the library come
    out as they are. *)
Definition http_request : M (nat * option pyval * string) := fun w =>
  let w' := {| files := files w; requests_made := S (requests_made w);
               clock_reads := clock_reads w |} in
  match requests (requests_made w) with
  | HttpResponse status_code body text => Ok (status_code, body, text) w'
  | HttpConnectionError => Raise ConnectionError w'
  | HttpTimeout => Raise Timeout w'
  end.

(** [open(filepath, 'w').write(report)]; the output directory exists (the
    constructor of the agent creates it) and the write goes through. *)
Definition write_file (filepath content : string) : M unit := fun w =>
  Ok tt {| files := <[ filepath := content ]> (files w);
           requests_made := requests_made w; clock_reads := clock_reads w |}.

(** [response.json()]. *)
Definition response_json (body : option pyval) : M pyval :=
  match body with
  | Some v => ret v
  | None => raise JSONDecodeError
  end.

End Primitives.

(** The failures the error handling of the examples is about: no
    connection, a timeout, a status other than 200. *)
Inductive request_fails : http_outcome -> Prop :=
| rf_connection : request_fails HttpConnectionError
| rf_timeout : request_fails HttpTimeout
| rf_status c b t : c <> 200%nat -> request_fails (HttpResponse c b t).

(** The world after one more request, and after one more reading of the
    clock. *)
Definition after_request (w : World) : World :=
  {| files := files w; requests_made := S (requests_made w);
     clock_reads := clock_reads w |}.


(** Two readings of the clock fall into the same second. *)
Definition same_second (t1 t2 : datetime) : Prop :=
  year t1 = year t2 /\ month t1 = month t2 /\ day t1 = day t2 /\
  hour t1 = hour t2 /\ minute t1 = minute t2 /\ second t1 = second t2.

(** Concrete worlds, for the worked examples. *)
Definition new_world : World :=
  {| files := ∅; requests_made := 0; clock_reads := 0 |}.

(** A clock that advances by one microsecond per reading. *)
Definition fast_clock : nat -> datetime := fun n =>
  {| year := 2024; month := 5; day := 17;
     hour := 9; minute := 3; second := 7; microsecond := n |}.

(** A clock that advances by one second per reading. *)
Definition slow_clock : nat -> datetime := fun n =>
  {| year := 2024; month := 5; day := 17;
     hour := 9; minute := 3; second := n; microsecond := 0 |}.

Definition no_text : pyval -> string := fun _ => "".
Definition same_text : string -> string := fun s => s.

(** The world after one request and no reading of the clock, and after one
    request and one reading. *)
Definition world_after_fetch : World :=
  {| files := ∅; requests_made := 1; clock_reads := 0 |}.

Definition world_after_parse : World :=
  {| files := ∅; requests_made := 1; clock_reads := 1 |}.

End Reporter.

(** ** The fixed-automation weather reporter: [weather_agent.py] *)

Module WeatherAgent.
Import Py Reporter.

(** The dict [parse_weather_data] returns. *)
Record ParsedData : Type := {
  pd_city : pyval;
  pd_country : pyval;
  pd_temperature : pyval;
  pd_feels_like : pyval;
  pd_humidity : pyval;
  pd_pressure : pyval;
  pd_description : pyval;
  pd_wind_speed : pyval;
  pd_timestamp : string
}.

Section Methods.

(** [config.py] of this example is not among the sources: the output
    directory is a parameter. *)
Variable OUTPUT_DIR : string.
Variable requests : nat -> http_outcome.
Variable clock : nat -> datetime.
(** Python's [str(v)], [s.title()] and [s.strip()]. *)
Variable py_str : pyval -> string.
Variable str_title : string -> string.
Variable str_strip : string -> string.

Local Abbreviation now := (Reporter.now clock).
Local Abbreviation http_request := (Reporter.http_request requests).

Definition fetch_weather_data : M pyval :=
  '(status_code, body, _) <- http_request ;;
  if Nat.eqb status_code 200 then response_json body
  else raise (Exception ("API request failed with status " +:+
                         string_of_nat status_code)).

(** [v[k]] for a string key. *)
Definition getitem (v : pyval) (k : string) : M pyval :=
  match v with
  | PDict d => match dict_lookup k d with
               | Some x => ret x
               | None => raise (KeyError k)
               end
  | _ => raise (TypeError "indices must be integers or object is not subscriptable")
  end.

(** [v[0]]. *)
Definition getitem0 (v : pyval) : M pyval :=
  match v with
  | PList (x :: _) => ret x
  | PList [] => raise IndexError
  | PStr (String c _) => ret (PStr (String c EmptyString))
  | PStr EmptyString => raise IndexError
  | PDict _ => raise (KeyError "0")
  | _ => raise (TypeError "object is not subscriptable")
  end.

Definition parse_weather_data (weather_data : pyval) : M ParsedData :=
  city <- getitem weather_data "name" ;;
  sys <- getitem weather_data "sys" ;;
  country <- getitem sys "country" ;;
  main <- getitem weather_data "main" ;;
  temperature <- getitem main "temp" ;;
  main <- getitem weather_data "main" ;;
  feels_like <- getitem main "feels_like" ;;
  main <- getitem weather_data "main" ;;
  humidity <- getitem main "humidity" ;;
  main <- getitem weather_data "main" ;;
  pressure <- getitem main "pressure" ;;
  weather <- getitem weather_data "weather" ;;
  weather0 <- getitem0 weather ;;
  description <- getitem weather0 "description" ;;
  wind <- getitem weather_data "wind" ;;
  wind_speed <- getitem wind "speed" ;;
  t <- now ;;
  ret {| pd_city := city; pd_country := country;
         pd_temperature := temperature; pd_feels_like := feels_like;
         pd_humidity := humidity; pd_pressure := pressure;
         pd_description := description; pd_wind_speed := wind_speed;
         pd_timestamp := isoformat t |}.

(** [_call_ollama_api]: every failure inside its [try] is raised again as
    an [Exception]. *)
Definition _call_ollama_api : M pyval :=
  try_except
    ('(status_code, body, text) <- http_request ;;
     if Nat.eqb status_code 200 then
       result <- response_json body ;;
       match result with
       | PDict d => ret (dict_get d "response" (PStr ""))
       | _ => raise (AttributeError "get")
       end
     else
       raise (Exception ("Ollama API error: " +:+ string_of_nat status_code +:+
                         " - " +:+ text)))
    (fun e =>
       match e with
       | ConnectionError =>
           raise (Exception
             "Cannot connect to Ollama. Make sure Ollama is running on localhost:11434")
       | Timeout =>
           raise (Exception
             "Ollama request timed out. The model might be too slow or not loaded.")
       | _ => raise (Exception ("Error calling Ollama API: " +:+ exn_str e))
       end).

(** [v.title()] and [v.strip()]: methods of strings only. *)
Definition title (v : pyval) : M string :=
  match v with
  | PStr s => ret (str_title s)
  | _ => raise (AttributeError "title")
  end.

Definition strip (v : pyval) : M string :=
  match v with
  | PStr s => ret (str_strip s)
  | _ => raise (AttributeError "strip")
  end.

(** The lines the two report templates share. *)
Definition report_head (parsed_data : ParsedData) (description_title : string)
  : string :=
  nl +:+
  "WEATHER REPORT" +:+ nl +:+
  "==============" +:+ nl +:+
  "City: " +:+ py_str (pd_city parsed_data) +:+ ", " +:+
    py_str (pd_country parsed_data) +:+ nl +:+
  "Date: " +:+ pd_timestamp parsed_data +:+ nl +:+
  nl +:+
  "Current Conditions:" +:+ nl +:+
  "- Temperature: " +:+ py_str (pd_temperature parsed_data) +:+ "°C" +:+ nl +:+
  "- Feels Like: " +:+ py_str (pd_feels_like parsed_data) +:+ "°C" +:+ nl +:+
  "- Humidity: " +:+ py_str (pd_humidity parsed_data) +:+ "%" +:+ nl +:+
  "- Pressure: " +:+ py_str (pd_pressure parsed_data) +:+ " hPa" +:+ nl +:+
  "- Description: " +:+ description_title +:+ nl +:+
  "- Wind Speed: " +:+ py_str (pd_wind_speed parsed_data) +:+ " m/s" +:+ nl +:+
  nl.

Definition enhanced_report (parsed_data : ParsedData) (ai_summary : pyval)
  : M string :=
  d <- title (pd_description parsed_data) ;;
  a <- strip ai_summary ;;
  ret (report_head parsed_data d +:+
       "AI Weather Summary:" +:+ nl +:+
       a +:+ nl +:+
       nl +:+
       "Report generated by Fixed Automation Weather Agent (Enhanced with Ollama)"
       +:+ nl).

Definition basic_report (parsed_data : ParsedData) : M string :=
  d <- title (pd_description parsed_data) ;;
  ret (report_head parsed_data d +:+
       "Report generated by Fixed Automation Weather Agent" +:+ nl).

Definition generate_report (parsed_data : ParsedData) : M string :=
  try_except
    (ai_summary <- _call_ollama_api ;;
     enhanced_report parsed_data ai_summary)
    (fun _ => basic_report parsed_data).

Definition save_report (report : string) : M string :=
  t <- now ;;
  let timestamp := strftime_Ymd_HMS t in
  let filename := "weather_report_" +:+ timestamp +:+ ".txt" in
  let filepath := path_join OUTPUT_DIR filename in
  write_file filepath report ;;;
  ret filepath.

Definition run : M bool :=
  try_except
    (weather_data <- fetch_weather_data ;;
     parsed_data <- parse_weather_data weather_data ;;
     report <- generate_report parsed_data ;;
     filepath <- save_report report ;;
     ret true)
    (fun _ => ret false).

End Methods.

(** *** Concrete worlds, for the worked examples *)

(** An answer of the weather service. *)
Definition weather_body : pyval :=
  PDict [ ("name", PStr "London");
          ("sys", PDict [("country", PStr "GB")]);
          ("main", PDict [ ("temp", PNum 15); ("feels_like", PNum 14);
                           ("humidity", PNum 80); ("pressure", PNum 1012) ]);
          ("weather", PList [PDict [("description", PStr "light rain")]]);
          ("wind", PDict [("speed", PNum 4)]) ].

(** The weather service answers, the generation endpoint is down. *)
Definition ollama_down : nat -> http_outcome := fun n =>
  match n with
  | O => HttpResponse 200 (Some weather_body) ""
  | _ => HttpConnectionError
  end.

(** The weather service refuses the API key. *)
Definition weather_api_refuses : nat -> http_outcome := fun _ =>
  HttpResponse 401 None "".

(** What [parse_weather_data] makes of [weather_body] at the first reading
    of [fast_clock]. *)
Definition parsed_sample : ParsedData :=
  {| pd_city := PStr "London"; pd_country := PStr "GB";
     pd_temperature := PNum 15; pd_feels_like := PNum 14;
     pd_humidity := PNum 80; pd_pressure := PNum 1012;
     pd_description := PStr "light rain"; pd_wind_speed := PNum 4;
     pd_timestamp := "2024-05-17T09:03:07" |}.

(** Parsed data whose description is a number. *)
Definition parsed_numeric_description : ParsedData :=
  {| pd_city := PStr "London"; pd_country := PStr "GB";
     pd_temperature := PNum 15; pd_feels_like := PNum 14;
     pd_humidity := PNum 80; pd_pressure := PNum 1012;
     pd_description := PNum 800; pd_wind_speed := PNum 4;
     pd_timestamp := "2024-05-17T09:03:07" |}.

End WeatherAgent.

(** ** The fixed-automation dinosaur reporter: [dino_agent.py] *)

Module DinoAgent.
Import Py Reporter.

(** The dict [parse_dino_data] returns. *)
Record ParsedData : Type := {
  pd_name : pyval;
  pd_description : pyval;
  pd_period : pyval;
  pd_diet : pyval;
  pd_length : pyval;
  pd_weight : pyval;
  pd_timestamp : string
}.

Section Methods.

(** [config.py] of this example is not among the sources: the output
    directory is a parameter. *)
Variable OUTPUT_DIR : string.
Variable requests : nat -> http_outcome.
Variable clock : nat -> datetime.
(** Python's [str(v)] and [s.strip()]. *)
Variable py_str : pyval -> string.
Variable str_strip : string -> string.

Local Abbreviation now := (Reporter.now clock).
Local Abbreviation http_request := (Reporter.http_request requests).

Definition fetch_dino_data (name description : string) : M pyval :=
  '(status_code, body, _) <- http_request ;;
  if Nat.eqb status_code 200 then response_json body
  else raise (Exception ("API request failed with status " +:+
                         string_of_nat status_code)).

(** [v.get(k, dflt)] on a value that may not be a dict. *)
Definition py_get (v : pyval) (k : string) (dflt : pyval) : M pyval :=
  match v with
  | PDict d => ret (dict_get d k dflt)
  | _ => raise (AttributeError "get")
  end.

Definition parse_dino_data (dino_data : pyval) : M ParsedData :=
  name <- py_get dino_data "name" (PStr "Unknown") ;;
  description <- py_get dino_data "description" (PStr "No description available") ;;
  period <- py_get dino_data "period" (PStr "Unknown period") ;;
  diet <- py_get dino_data "diet" (PStr "Unknown diet") ;;
  length' <- py_get dino_data "length" (PStr "Unknown length") ;;
  weight <- py_get dino_data "weight" (PStr "Unknown weight") ;;
  t <- now ;;
  ret {| pd_name := name; pd_description := description;
         pd_period := period; pd_diet := diet;
         pd_length := length'; pd_weight := weight;
         pd_timestamp := isoformat t |}.

(** [_call_ollama_api], the same text as in [weather_agent.py]. *)
Definition _call_ollama_api : M pyval :=
  try_except
    ('(status_code, body, text) <- http_request ;;
     if Nat.eqb status_code 200 then
       result <- response_json body ;;
       match result with
       | PDict d => ret (dict_get d "response" (PStr ""))
       | _ => raise (AttributeError "get")
       end
     else
       raise (Exception ("Ollama API error: " +:+ string_of_nat status_code +:+
                         " - " +:+ text)))
    (fun e =>
       match e with
       | ConnectionError =>
           raise (Exception
             "Cannot connect to Ollama. Make sure Ollama is running on localhost:11434")
       | Timeout =>
           raise (Exception
             "Ollama request timed out. The model might be too slow or not loaded.")
       | _ => raise (Exception ("Error calling Ollama API: " +:+ exn_str e))
       end).

Definition strip (v : pyval) : M string :=
  match v with
  | PStr s => ret (str_strip s)
  | _ => raise (AttributeError "strip")
  end.

(** The lines the two report templates share. *)
Definition report_head (parsed_data : ParsedData) : string :=
  nl +:+
  "DINOSAUR REPORT" +:+ nl +:+
  "===============" +:+ nl +:+
  "Name: " +:+ py_str (pd_name parsed_data) +:+ nl +:+
  "Date: " +:+ pd_timestamp parsed_data +:+ nl +:+
  nl +:+
  "Dinosaur Information:" +:+ nl +:+
  "- Name: " +:+ py_str (pd_name parsed_data) +:+ nl +:+
  "- Description: " +:+ py_str (pd_description parsed_data) +:+ nl +:+
  nl +:+
  nl.

Definition enhanced_report (parsed_data : ParsedData) (ai_summary : pyval)
  : M string :=
  a <- strip ai_summary ;;
  ret (report_head parsed_data +:+
       "AI Dinosaur Summary:" +:+ nl +:+
       a +:+ nl +:+
       nl +:+
       "Report generated by Fixed Automation Dinosaur Agent (Enhanced with Ollama)"
       +:+ nl).

Definition basic_report (parsed_data : ParsedData) : string :=
  report_head parsed_data +:+
  "Report generated by Fixed Automation Dinosaur Agent" +:+ nl.

Definition generate_report (parsed_data : ParsedData) : M string :=
  try_except
    (ai_summary <- _call_ollama_api ;;
     enhanced_report parsed_data ai_summary)
    (fun _ => ret (basic_report parsed_data)).

Definition save_report (report : string) : M string :=
  t <- now ;;
  let timestamp := strftime_Ymd_HMS t in
  let filename := "dinosaur_report_" +:+ timestamp +:+ ".txt" in
  let filepath := path_join OUTPUT_DIR filename in
  write_file filepath report ;;;
  ret filepath.

Definition run : M bool :=
  try_except
    (dino_data <- fetch_dino_data "Tyrannosaurus" "Large carnivorous dinosaur" ;;
     parsed_data <- parse_dino_data dino_data ;;
     report <- generate_report parsed_data ;;
     filepath <- save_report report ;;
     ret true)
    (fun _ => ret false).

End Methods.

(** *** Concrete worlds, for the worked examples *)

(** An answer of the dinosaur service. *)
Definition dino_body : pyval :=
  PDict [ ("name", PStr "Tyrannosaurus");
          ("description", PStr "Large carnivorous dinosaur") ].

(** The dinosaur service answers, the generation endpoint times out. *)
Definition ollama_times_out : nat -> http_outcome := fun n =>
  match n with
  | O => HttpResponse 200 (Some dino_body) ""
  | _ => HttpTimeout
  end.

(** The dinosaur service cannot be reached. *)
Definition unreachable : nat -> http_outcome := fun _ => HttpConnectionError.

(** What [parse_dino_data] makes of [dino_body] at the first reading of
    [fast_clock]. *)
Definition parsed_sample : ParsedData :=
  {| pd_name := PStr "Tyrannosaurus";
     pd_description := PStr "Large carnivorous dinosaur";
     pd_period := PStr "Unknown period"; pd_diet := PStr "Unknown diet";
     pd_length := PStr "Unknown length"; pd_weight := PStr "Unknown weight";
     pd_timestamp := "2024-05-17T09:03:07" |}.

End DinoAgent.

(** * Properties of the ReAct planner *)

Section ReActProperties.
Import Py ReAct.

Variable ollama : nat -> http_outcome.
Variable json_loads : string -> option pyval.
Variable clock : nat -> datetime.

(** **** What one call to the generation endpoint does to the agent *)

Lemma call_ollama_state (s : Agent) :
  (exists v, _call_ollama_api ollama s = Ok v (bump_calls s)) \/
  (exists e, _call_ollama_api ollama s = Raise e (bump_calls s)).
Proof.
  unfold _call_ollama_api, try_except, bind, requests_post, bump_calls; simpl.
  destruct (ollama (ollama_calls s)) as [c b t| |]; simpl; eauto.
  destruct (Nat.eqb c 200); simpl; eauto.
  destruct b as [[]|]; simpl; eauto.
Qed.

Lemma call_ollama_raises (s : Agent) :
  call_raises (ollama (ollama_calls s)) ->
  exists e, _call_ollama_api ollama s = Raise e (bump_calls s).
Proof.
  intros H.
  unfold _call_ollama_api, try_except, bind, requests_post, bump_calls; simpl.
  inversion H as [ | | c b t Hc Heq | t Heq | v t Hv Heq ]; simpl; eauto.
  - apply Nat.eqb_neq in Hc. rewrite Hc. simpl. eauto.
  - destruct v; simpl; eauto. exfalso. eapply Hv. reflexivity.
Qed.

Lemma loads_state (v : pyval) (s : Agent) :
  (exists w, loads json_loads v s = Ok w s) \/
  (exists e, loads json_loads v s = Raise e s).
Proof.
  destruct v as [| | |r| |]; simpl; eauto.
  destruct (json_loads r); simpl; eauto.
Qed.

Lemma reason_state (p : Plan) (ta : pyval) (s : Agent) :
  exists v, _reason_about_current_state ollama json_loads p ta s
            = Ok v (bump_calls s).
Proof.
  unfold _reason_about_current_state, try_except, bind.
  destruct (call_ollama_state s) as [[v ->]|[e ->]]; [|eauto].
  destruct (loads_state v (bump_calls s)) as [[w ->]|[e ->]]; eauto.
Qed.

(** C5 - When every request to the generation endpoint makes the call raise,
    or is answered with text that is not valid JSON, [_analyze_task] returns
    the hard-coded default record, whatever the task and the agent's state,
    after exactly one request (no retry). *)
Theorem C5_analyze_task_falls_back_to_default :
  (forall n, call_raises (ollama n) \/ invalid_json_response json_loads (ollama n)) ->
  forall (task_description : string) (s : Agent),
  exists s',
    _analyze_task ollama json_loads task_description s = Ok default_analysis s' /\
    ReAct.ollama_calls s' = S (ReAct.ollama_calls s).
Proof.
  intros Hfail task s. exists (bump_calls s). split; [|reflexivity].
  unfold _analyze_task, try_except, bind.
  destruct (Hfail (ReAct.ollama_calls s)) as [Hr | (d & t & r & Ho & Hd & Hj)].
  - destruct (call_ollama_raises s Hr) as [e ->]. reflexivity.
  - unfold _call_ollama_api, try_except, bind, requests_post.
    rewrite Ho. simpl. rewrite Hd. simpl. rewrite Hj. reflexivity.
Qed.

(** **** The confidence update *)

Lemma py_min_le_1 (x : Q) : (py_min x 1 <= 1)%Q.
Proof.
  unfold py_min. destruct (Qle_bool x 1) eqn:E.
  - apply Qle_bool_iff. exact E.
  - apply Qle_refl.
Qed.





(** **** One iteration of the loop *)

Lemma determine_next_action_spec (p : Plan) (v : pyval) (s : Agent) :
  exists a,
    _determine_next_action p v s
    = Ok a {| current_plan := current_plan s; planning_iteration := planning_iteration s;
              planning_history := planning_history s; heap := heap s;
              ollama_calls := ReAct.ollama_calls s; clock_reads := ReAct.clock_reads s;
              printed_actions := printed_actions s ++ [a] |} /\
    ((current_step p < length (steps p))%nat /\
       (exists step, steps p !! current_step p = Some step /\
         a = {| a_type := "execute_step"; a_step := Some step;
                a_step_index := Some (current_step p); a_priority := "high" |})
     \/ (length (steps p) <= current_step p)%nat /\
        a = {| a_type := "finalize_plan"; a_step := None;
               a_step_index := None; a_priority := "high" |}).
Proof.
  unfold _determine_next_action, bind.
  destruct (Nat.ltb_spec (current_step p) (length (steps p))) as [Hlt|Hge].
  - destruct (lookup_lt_is_Some_2 (steps p) (current_step p) Hlt) as [step Hs].
    rewrite Hs. simpl. eexists. split; [reflexivity|]. left. eauto.
  - simpl. eexists. split; [reflexivity|]. right. eauto.
Qed.

Lemma execute_planning_step_spec (step : string) (idx : nat) (pr : string)
  (p : Plan) (ta : pyval) (s : Agent) :
  match _execute_planning_step clock
          {| a_type := "execute_step"; a_step := Some step;
             a_step_index := Some idx; a_priority := pr |} p ta s with
  | Ok (r, p') s' => step_post step idx p s r p' s'
  | Raise e s' => e = AttributeError "get" /\ s' = s /\ forall d, ta <> PDict d
  | OutOfFuel => False
  end.
Proof.
  assert (Hpost : forall r p' x,
    cs_step x = step -> cs_step_index x = idx -> cs_result x = r ->
    r_success r = true -> same_plan_frame p p' ->
    current_step p' = (idx + 1)%nat -> confidence p' = confidence p ->
    status p' = status p ->
    step_post step idx p s r p'
      {| current_plan := current_plan s; planning_iteration := planning_iteration s;
         planning_history := planning_history s;
         heap := <[ completed_steps p := deref (heap s) (completed_steps p) ++ [x] ]> (heap s);
         ollama_calls := ReAct.ollama_calls s; clock_reads := S (ReAct.clock_reads s);
         printed_actions := printed_actions s |}).
  { intros r p' x H1 H2 H3 H4 H5 H6 H7 H8. unfold step_post; simpl.
    repeat (split; [first [assumption | reflexivity | done]|]).
    exists x. done. }
  unfold _execute_planning_step, bind; simpl.
  destruct (str_in "weather" (lower step)).
  { unfold _execute_weather_step, bind, py_get.
    destruct ta; simpl; try (split; [reflexivity|split; [reflexivity|congruence]]).
    apply Hpost; done. }
  destruct (str_in "activity" (lower step)); [simpl; apply Hpost; done|].
  destruct (str_in "contingency" (lower step)); simpl; apply Hpost; done.
Qed.

Lemma update_plan_spec (p : Plan) (r : ActionResult) (s : Agent) :
  match _update_plan_based_on_result clock p r s with
  | Ok p' s' => update_post p r s p' s'
  | Raise e s' => as_number (confidence p) = None /\ s' = s /\ exists w, e = TypeError w
  | OutOfFuel => False
  end.
Proof.
  unfold _update_plan_based_on_result, bind, add_float.
  destruct (r_success r) eqn:Hr; simpl;
    destruct (as_number (confidence p)) as [c|] eqn:Hc; simpl; eauto;
    unfold update_post, same_plan_frame; simpl; rewrite Hr;
    (split; [exists c; done|]); repeat (split; [done|]); eexists; reflexivity.
Qed.

Lemma is_planning_complete_spec (p : Plan) (s : Agent) :
  match _is_planning_complete p s with
  | Ok b s' => s' = s /\ (exists c, as_number (confidence p) = Some c) /\
               forall s0, _is_planning_complete p s0 = Ok b s0
  | Raise e s' => as_number (confidence p) = None /\ s' = s
  | OutOfFuel => False
  end.
Proof.
  unfold _is_planning_complete, bind, ge_float.
  destruct (as_number (confidence p)) as [c|]; simpl; eauto.
Qed.

Lemma execute_action_execute_step (step : option string) (idx : option nat)
  (pr : string) (p : Plan) (ta : pyval) :
  _execute_action clock
    {| a_type := "execute_step"; a_step := step; a_step_index := idx;
       a_priority := pr |} p ta
  = _execute_planning_step clock
      {| a_type := "execute_step"; a_step := step; a_step_index := idx;
         a_priority := pr |} p ta.
Proof. reflexivity. Qed.

Lemma execute_action_finalize_plan (step : option string) (idx : option nat)
  (pr : string) (p : Plan) (ta : pyval) (s : Agent) :
  _execute_action clock
    {| a_type := "finalize_plan"; a_step := step; a_step_index := idx;
       a_priority := pr |} p ta s
  = Raise (AttributeError "_finalize_planning") s.
Proof. reflexivity. Qed.

Lemma planning_cycle_spec (p : Plan) (ta : pyval) (s : Agent) :
  match planning_cycle ollama json_loads clock p ta s with
  | Ok (p', b) s' => cycle_post p s p' b s'
  | Raise e s' => cycle_raise_post p ta s e s'
  | OutOfFuel => False
  end.
Proof.
  unfold planning_cycle, bind.
  destruct (reason_state p ta s) as [v ->].
  destruct (determine_next_action_spec p v (bump_calls s))
    as (a & -> & [(Hlt & step & Hs & ->) | (Hge & ->)]).
  2:{ rewrite execute_action_finalize_plan.
      unfold cycle_raise_post; simpl.
      repeat (split; [first [done | lia]|]).
      split; [eexists; split; [reflexivity|]; intros; lia|]. left. done. }
  rewrite execute_action_execute_step.
  match goal with
  | |- context [_execute_planning_step clock ?a p ta ?s1] =>
      pose proof (execute_planning_step_spec step (current_step p) "high" p ta s1) as Hstep;
      destruct (_execute_planning_step clock a p ta s1) as [[r p1] s2|e s2|]
  end; [| |done].
  2:{ destruct Hstep as (-> & -> & Hta). unfold cycle_raise_post; simpl.
      repeat (split; [first [done | lia]|]).
      split; [eexists; split; [reflexivity|]; done|]. right. left. done. }
  destruct Hstep as (Hr & Hf1 & Hcs & Hconf & Hst & Hit & Hcalls & Hhist & Hpr & Hcp
                     & x & Hx1 & Hx2 & Hx3 & Hheap).
  simpl in Hit, Hcalls, Hhist, Hpr, Hcp, Hheap.
  pose proof (update_plan_spec p1 r s2) as Hup.
  destruct (_update_plan_based_on_result clock p1 r s2) as [p2 s3|e s3|]; [| |done].
  2:{ destruct Hup as (Hnone & -> & Hw). unfold cycle_raise_post.
      rewrite Hit, Hcalls, Hhist, Hpr; simpl.
      repeat (split; [first [done | lia]|]).
      split; [eexists; split; [reflexivity|]; done|].
      right. right. rewrite <- Hconf. done. }
  destruct Hup as ((c & Hc & Hc') & Hst' & Hf2 & Hcs' & Hw & Ha & Hcp' & Hit' & Hcalls'
                   & Hheap' & Hpr' & Hcur' & t & Hhist').
  rewrite Hr in Hc', Hst'.
  pose proof (is_planning_complete_spec p2 s3) as Hic.
  destruct (_is_planning_complete p2 s3) as [b s4|e s4|]; [| |done].
  2:{ destruct Hic as (Hnone & _). rewrite Hc' in Hnone. done. }
  destruct Hic as (-> & _ & Hb). simpl.
  destruct Hf1 as (F1 & F2 & F3 & F4). destruct Hf2 as (G1 & G2 & G3 & G4).
  unfold cycle_post, same_plan_frame.
  split; [done|].
  split; [repeat split; congruence|].
  split; [rewrite Hcs', Hcs; lia|].
  split; [exists c; split; congruence|].
  split; [done|].
  split; [congruence|].
  split; [rewrite Hcalls', Hcalls; done|].
  split; [congruence|].
  split; [exists step; split; [done|congruence]|].
  split; [exists x; split; [done|congruence]|].
  split; [exists r, t; split; [done|]; rewrite Hhist', Hhist, Hit; done|].
  done.
Qed.

(** **** The loop *)

Lemma while_planning_unfold (fuel : nat) (p : Plan) (ta : pyval) (s : Agent) :
  while_planning ollama json_loads clock (S fuel) p ta s =
  if (planning_iteration s <? MAX_PLANNING_ITERATIONS)%nat then
    match planning_cycle ollama json_loads clock p ta s with
    | Ok (p', b) s' =>
        if b then Ok p' s'
        else while_planning ollama json_loads clock fuel p' ta
               (with_iteration (planning_iteration s' + 1) s')
    | Raise e s' => Raise e s'
    | OutOfFuel => OutOfFuel
    end
  else Ok p s.
Proof.
  simpl. unfold bind, get_state.
  destruct (planning_iteration s <? MAX_PLANNING_ITERATIONS)%nat; [|reflexivity].
  destruct (planning_cycle ollama json_loads clock p ta s) as [[p' b] s'|e s'|];
    try reflexivity.
  destruct b; reflexivity.
Qed.

Lemma while_planning_bound (fuel : nat) :
  forall (p : Plan) (ta : pyval) (s : Agent),
  (MAX_PLANNING_ITERATIONS - planning_iteration s < fuel)%nat ->
  exists s',
    final_state (while_planning ollama json_loads clock fuel p ta s) = Some s' /\
    (ReAct.ollama_calls s'
       <= ReAct.ollama_calls s + (MAX_PLANNING_ITERATIONS - planning_iteration s))%nat /\
    (length (printed_actions s')
       <= length (printed_actions s) + (MAX_PLANNING_ITERATIONS - planning_iteration s))%nat /\
    (length (planning_history s')
       <= length (planning_history s) + (MAX_PLANNING_ITERATIONS - planning_iteration s))%nat.
Proof.
  induction fuel as [|fuel IH]; intros p ta s Hfuel; [lia|].
  rewrite while_planning_unfold.
  destruct (Nat.ltb_spec (planning_iteration s) MAX_PLANNING_ITERATIONS) as [Hlt|Hge].
  2:{ exists s. simpl. repeat split; lia. }
  pose proof (planning_cycle_spec p ta s) as Hc.
  destruct (planning_cycle ollama json_loads clock p ta s) as [[p' b] s'|e s'|];
    [| |done].
  - destruct Hc as (_ & _ & _ & _ & _ & Hit & Hcalls & _ & (step & _ & Hpr) & _
                    & (r & t & _ & Hh) & _).
    destruct b.
    + exists s'. simpl. rewrite Hcalls, Hpr, Hh, !length_app. simpl.
      repeat split; lia.
    + destruct (IH p' ta (with_iteration (planning_iteration s' + 1) s'))
        as (s2 & Hf & H1 & H2 & H3); [simpl; lia|].
      exists s2. split; [exact Hf|]. simpl in H1, H2, H3.
      rewrite Hcalls in H1. rewrite Hpr, length_app in H2.
      rewrite Hh, length_app in H3. simpl in H2, H3.
      repeat split; lia.
  - destruct Hc as (Hit & Hcalls & Hh & (a & Hpr & _) & _).
    exists s'. simpl. rewrite Hcalls, Hpr, Hh, length_app. simpl.
    repeat split; lia.
Qed.

(** C2 - Whatever the plan, the task analysis and the state of the agent,
    [_execute_planning_iterations] comes to an end (it returns or raises;
    it needs no more than [MAX_PLANNING_ITERATIONS + 1] evaluations of the
    loop condition) after at most [MAX_PLANNING_ITERATIONS] = 5 cycles: at
    most 5 requests for reasoning, 5 chosen actions, 5 history entries. *)
Theorem C2_at_most_max_planning_iterations
  (fuel : nat) (plan : Plan) (task_analysis : pyval) (s : Agent) :
  (MAX_PLANNING_ITERATIONS < fuel)%nat ->
  exists s',
    final_state (_execute_planning_iterations ollama json_loads clock fuel
                   plan task_analysis s) = Some s' /\
    (ReAct.ollama_calls s' <= ReAct.ollama_calls s + 5)%nat /\
    (length (printed_actions s') <= length (printed_actions s) + 5)%nat /\
    (length (planning_history s') <= length (planning_history s) + 5)%nat.
Proof.
  intros Hfuel.
  destruct (while_planning_bound fuel plan task_analysis (with_iteration 0 s))
    as (s' & Hf & H1 & H2 & H3);
    [unfold MAX_PLANNING_ITERATIONS in *; simpl; lia|].
  exists s'. split; [exact Hf|].
  unfold MAX_PLANNING_ITERATIONS in *. simpl in H1, H2, H3.
  repeat split; lia.
Qed.

(** **** The loop in the shipped configuration *)

Lemma planning_complete_of_method (p : Plan) (b : bool) :
  (forall s0, _is_planning_complete p s0 = Ok b s0) -> planning_complete p = Some b.
Proof. intros H. unfold planning_complete. rewrite H. reflexivity. Qed.

Lemma planning_complete_true_steps (p : Plan) :
  planning_complete p = Some true -> (length (steps p) <= current_step p)%nat.
Proof.
  unfold planning_complete, _is_planning_complete, bind, ge_float.
  destruct (as_number (confidence p)); simpl; [|done].
  destruct (Nat.leb_spec (length (steps p)) (current_step p)); [done|].
  simpl. done.
Qed.

Lemma deref_insert (h : list (list CompletedStep)) (l : loc) (v : list CompletedStep) :
  (l < length h)%nat -> deref (<[ l := v ]> h) l = v.
Proof.
  intros Hl. unfold deref. rewrite list_lookup_insert_eq; done.
Qed.

Lemma template_steps_length (k : string) (l : list string) :
  template_steps k PLANNING_TEMPLATES = Some l -> length l = MAX_PLANNING_ITERATIONS.
Proof.
  unfold PLANNING_TEMPLATES; simpl.
  repeat (match goal with |- context [String.eqb k ?x] => destruct (String.eqb k x) end;
          [intros [= <-]; reflexivity|]).
  done.
Qed.

Lemma while_planning_shipped (fuel : nat) :
  forall (p : Plan) (ta : pyval) (s : Agent),
  planning_iteration s = current_step p ->
  length (steps p) = MAX_PLANNING_ITERATIONS ->
  (current_step p <= MAX_PLANNING_ITERATIONS)%nat ->
  (MAX_PLANNING_ITERATIONS - current_step p < fuel)%nat ->
  (completed_steps p < length (heap s))%nat ->
  match while_planning ollama json_loads clock fuel p ta s with
  | Ok p' s' => loop_post p s p' s'
  | Raise e s' => loop_raise_post p ta s e s'
  | OutOfFuel => False
  end.
Proof.
  induction fuel as [|fuel IH]; intros p ta s Hit Hlen Hle Hfuel Hloc; [lia|].
  rewrite while_planning_unfold.
  destruct (Nat.ltb_spec (planning_iteration s) MAX_PLANNING_ITERATIONS) as [Hlt|Hge].
  2:{ assert (Hn : (MAX_PLANNING_ITERATIONS - current_step p = 0)%nat) by lia.
      unfold loop_post. rewrite Hn. cbv zeta.
      split; [done|]. split; [lia|]. split; [lia|]. split; [done|]. split; [done|].
      split; [exists []; rewrite app_nil_r; repeat split; constructor|].
      split; [exists []; rewrite app_nil_r; done|].
      exists []. rewrite app_nil_r.
      split; [done|]. split; [done|].
      split; [intros j e Hj; rewrite lookup_nil in Hj; done|].
      split; [done|lia]. }
  pose proof (planning_cycle_spec p ta s) as Hc.
  destruct (planning_cycle ollama json_loads clock p ta s) as [[p1 b] s1|e s1|];
    [| |done].
  2:{ destruct Hc as (_ & _ & _ & (a & Hpr & Ha) & Hcause).
      unfold loop_raise_post.
      split; [exists [a]; split; [done|]; constructor; [apply Ha; lia|constructor]|].
      destruct Hcause as [(Hge & _)|[(Hta & ->)|(Hnone & w & ->)]];
        [lia|split; [done|left; done]|split; [done|right; done]]. }
  destruct Hc as (Hlt' & Hf & Hcs & (c & Hc0 & Hc1) & Hst & Hit1 & Hcalls & Hcp
                  & (step & Hstep & Hpr) & (x & Hx & Hheap) & (r & t & Hr & Hh) & Hb).
  pose proof Hf as (F1 & F2 & F3 & F4).
  apply planning_complete_of_method in Hb.
  assert (Hderef : deref (heap s1) (completed_steps p)
                   = deref (heap s) (completed_steps p) ++ [x]).
  { rewrite Hheap. apply deref_insert. done. }
  assert (Hhl : length (heap s1) = length (heap s)).
  { rewrite Hheap. apply length_insert. }
  destruct b.
  - (* the plan is complete: the loop is left by [break] *)
    apply planning_complete_true_steps in Hb as Hsteps.
    rewrite F2, Hlen, Hcs in Hsteps.
    assert (Hn : (MAX_PLANNING_ITERATIONS - current_step p = 1)%nat) by lia.
    unfold loop_post. rewrite Hn. cbv zeta.
    split; [done|]. split; [lia|]. split; [lia|]. split; [done|]. split; [done|].
    split; [eexists; split; [exact Hpr|]; split; [done|];
            constructor; [reflexivity|constructor]|].
    split; [exists [x]; split; [done|]; simpl; rewrite Hx; done|].
    eexists. split; [exact Hh|]. split; [done|].
    split; [intros j e _ Hj; lia|].
    split; [lia|]. intros _. split; [done|]. split; [eauto|].
    left. split; [done|lia].
  - (* not complete: next iteration *)
    specialize (IH p1 ta (with_iteration (planning_iteration s1 + 1) s1)).
    simpl in IH.
    assert (Hn : (MAX_PLANNING_ITERATIONS - current_step p
                  = S (MAX_PLANNING_ITERATIONS - current_step p1))%nat) by lia.
    lapply IH; [clear IH; intros IH|lia].
    lapply IH; [clear IH; intros IH|congruence].
    lapply IH; [clear IH; intros IH|lia].
    lapply IH; [clear IH; intros IH|lia].
    lapply IH; [clear IH; intros IH|rewrite F3; lia].
    destruct (while_planning ollama json_loads clock fuel p1 ta
                (with_iteration (planning_iteration s1 + 1) s1)) as [p' s'|e s'|];
      [| |done].
    + destruct IH as (G & Hcs' & Hcalls' & Hcp' & Hhl' & (acts & Hpr' & Hla & Hfa)
                      & (xs & Hxs & Hidx) & (es & Hh' & Hles & Hnl & Hz & Hpos)).
      simpl in Hcalls', Hcp', Hhl', Hpr', Hxs, Hh'.
      unfold loop_post. rewrite Hn. cbv zeta.
      split; [destruct G as (G1 & G2 & G3 & G4); repeat split; congruence|].
      split; [done|]. split; [lia|]. split; [congruence|]. split; [congruence|].
      split.
      { eexists (_ :: acts). split; [rewrite Hpr', Hpr, <- app_assoc; reflexivity|].
        split; [simpl; lia|]. constructor; [reflexivity|done]. }
      split.
      { exists (x :: xs). rewrite F3 in Hxs. rewrite Hxs, Hderef, <- app_assoc.
        split; [done|]. simpl. rewrite Hx, Hidx, Hcs. done. }
      eexists (_ :: es). split; [rewrite Hh', Hh, <- app_assoc; reflexivity|].
      split; [simpl; lia|].
      split.
      { intros [|j] e He Hj; simpl in He.
        - injection He as <-. done.
        - apply (Hnl j e He). lia. }
      split; [lia|]. intros _.
      destruct (Nat.eq_dec (MAX_PLANNING_ITERATIONS - current_step p1) 0) as [H0|H0].
      * destruct (Hz H0) as (-> & ->).
        destruct es; [|simpl in Hles; lia]. simpl.
        split; [done|]. split; [eauto|]. right. split; [done|]. lia.
      * destruct Hpos as (Hlast & Hnum & Hexit); [lia|].
        split; [|done].
        destruct es as [|e0 es]; [simpl in Hles; lia|].
        simpl in *. done.
    + destruct IH as ((acts & Hpr' & Hfa) & Hne & Hcause). simpl in Hpr'.
      unfold loop_raise_post.
      split.
      { eexists (_ :: acts). split; [rewrite Hpr', Hpr, <- app_assoc; reflexivity|].
        constructor; [reflexivity|done]. }
      split; [done|].
      destruct Hcause as [Hta|Hnone]; [left; done|].
      rewrite Hc1 in Hnone. done.
Qed.

(** **** The plan builder *)

Lemma template_default_length (k : string) :
  length (default (default [] (template_steps "outdoor_activity" PLANNING_TEMPLATES))
            (template_steps k PLANNING_TEMPLATES)) = MAX_PLANNING_ITERATIONS.
Proof.
  destruct (template_steps k PLANNING_TEMPLATES) as [l|] eqn:Hk.
  - eapply template_steps_length. exact Hk.
  - reflexivity.
Qed.

Lemma lookup_template_spec (tt : pyval) (s : Agent) :
  match lookup_template tt s with
  | Ok l s' => s' = s /\ length l = MAX_PLANNING_ITERATIONS
  | Raise e s' => s' = s /\ exists w, e = TypeError w
  | OutOfFuel => False
  end.
Proof.
  destruct tt as [| | |k| |]; try (simpl; eauto; fail).
  unfold lookup_template, ret. cbn [hashable]. cbv beta iota.
  split; [reflexivity|apply template_default_length].
Qed.

Lemma create_initial_plan_spec (ta : pyval) (s : Agent) (p : Plan) (s' : Agent) :
  _create_initial_plan clock ta s = Ok p s' ->
  (exists d, ta = PDict d /\ confidence p = dict_get d "confidence" (PNum (1 # 2))) /\
  status p = "planning" /\
  current_step p = 0%nat /\
  length (steps p) = MAX_PLANNING_ITERATIONS /\
  completed_steps p = length (heap s) /\
  heap s' = heap s ++ [[]] /\
  planning_history s' = planning_history s /\
  printed_actions s' = printed_actions s /\
  ReAct.ollama_calls s' = ReAct.ollama_calls s.
Proof.
  unfold _create_initial_plan, bind, py_get.
  destruct ta as [| | | | |d]; simpl; try done.
  pose proof (lookup_template_spec
                (dict_get d "task_type" (PStr "general_weather_planning")) s) as Ht.
  destruct (lookup_template _ s) as [l s1|e s1|]; [| done | done].
  destruct Ht as (-> & Hl). simpl.
  intros [= <- <-]. simpl. repeat split; eauto.
Qed.

Lemma analyze_task_state (task_description : string) (s : Agent) :
  exists ta, _analyze_task ollama json_loads task_description s
             = Ok ta (bump_calls s).
Proof.
  unfold _analyze_task, try_except, bind.
  destruct (call_ollama_state s) as [[v ->]|[e ->]]; [|eauto].
  destruct (loads_state v (bump_calls s)) as [[w ->]|[e ->]]; eauto.
Qed.

Lemma execute_planning_iterations_unfold (fuel : nat) (p : Plan) (ta : pyval)
  (s : Agent) :
  _execute_planning_iterations ollama json_loads clock fuel p ta s
  = while_planning ollama json_loads clock fuel p ta (with_iteration 0 s).
Proof. reflexivity. Qed.


(** The loop on a plan that [_create_initial_plan] has just built. *)
Lemma iterations_on_initial_plan (fuel : nat) (ta : pyval) (s0 : Agent)
  (p : Plan) (s : Agent) :
  (MAX_PLANNING_ITERATIONS < fuel)%nat ->
  _create_initial_plan clock ta s0 = Ok p s ->
  match _execute_planning_iterations ollama json_loads clock fuel p ta s with
  | Ok p' s' => loop_post p (with_iteration 0 s) p' s'
  | Raise e s' => loop_raise_post p ta (with_iteration 0 s) e s'
  | OutOfFuel => False
  end.
Proof.
  intros Hfuel Hcreate.
  apply create_initial_plan_spec in Hcreate
    as (_ & _ & Hcs & Hlen & Hloc & Hheap & _).
  rewrite execute_planning_iterations_unfold.
  apply while_planning_shipped; simpl; try lia.
  rewrite Hloc, Hheap, length_app. simpl. lia.
Qed.



(** **** The finalizer *)

Variable py_str : pyval -> string.
Variable format_percent : Q -> string.

Lemma finalize_plan_spec (p : Plan) (s : Agent) (c : Q) :
  confidence p = PNum c ->
  exists p' s',
    _finalize_plan clock py_str format_percent p s = Ok p' s' /\
    status p' = "completed" /\
    same_plan_frame p p' /\
    current_step p' = current_step p /\
    confidence p' = confidence p /\
    heap s' = heap s /\
    planning_history s' = planning_history s /\
    printed_actions s' = printed_actions s /\
    ReAct.ollama_calls s' = ReAct.ollama_calls s /\
    current_plan s' = Some p'.
Proof.
  intros Hc.
  unfold _finalize_plan, _generate_plan_summary, format_confidence, bind.
  simpl. rewrite Hc. simpl.
  eexists _, _. split; [reflexivity|]. simpl. unfold same_plan_frame. simpl.
  repeat split; done.
Qed.

(** C6 - A planning run that succeeds returns a plan whose
    [completed_steps] list has exactly five entries, one for each of the
    five template steps in order; this holds for every task description, in
    particular for the literal weekend task. *)
Theorem C6_five_completed_steps
  (fuel : nat) (task_description : string) (s : Agent) (plan : Plan) (s' : Agent) :
  (MAX_PLANNING_ITERATIONS < fuel)%nat ->
  plan_weather_activity ollama json_loads clock py_str format_percent fuel
    task_description s = Ok plan s' ->
  length (steps plan) = 5%nat /\
  length (deref (heap s') (completed_steps plan)) = 5%nat /\
  map cs_step_index (deref (heap s') (completed_steps plan)) = [0; 1; 2; 3; 4]%nat.
Proof.
  intros Hfuel Hrun.
  unfold plan_weather_activity, bind in Hrun.
  destruct (analyze_task_state task_description s) as [ta Hta].
  rewrite Hta in Hrun.
  destruct (_create_initial_plan clock ta (bump_calls s)) as [p0 s1|e s1|] eqn:Hcreate;
    [|done|done].
  pose proof (iterations_on_initial_plan fuel _ _ _ _ Hfuel Hcreate) as Hloop.
  apply create_initial_plan_spec in Hcreate
    as (_ & _ & Hcs & Hlen & Hloc & Hheap & _).
  destruct (_execute_planning_iterations ollama json_loads clock fuel p0 ta s1)
    as [p1 s2|e s2|]; [|done|done].
  destruct Hloop as ((_ & F2 & F3 & _) & _ & _ & _ & _ & _ & (xs & Hxs & Hidx)
                     & es & _ & _ & _ & _ & Hpos).
  rewrite Hcs, Nat.sub_0_r in Hidx, Hpos.
  destruct Hpos as (_ & (c & Hc) & _); [unfold MAX_PLANNING_ITERATIONS; lia|].
  destruct (finalize_plan_spec p1 s2 c Hc)
    as (p2 & s3 & Hfin & _ & (_ & G2 & G3 & _) & _ & _ & Hheap' & _).
  rewrite Hfin in Hrun. injection Hrun as <- <-.
  simpl in Hxs.
  assert (Hempty : deref (heap s1) (completed_steps p0) = []).
  { unfold deref. rewrite Hloc, Hheap. simpl heap.
    rewrite lookup_app_r by lia. rewrite Nat.sub_diag. reflexivity. }
  rewrite Hempty in Hxs. simpl in Hxs.
  rewrite G2, F2, G3, F3, Hheap', Hxs.
  split; [exact Hlen|].
  split; [|exact Hidx].
  rewrite <- (length_map cs_step_index), Hidx. reflexivity.
Qed.

(** **** The status field *)

Lemma execute_action_status (a : Action) (p : Plan) (ta : pyval) (s : Agent)
  (r : ActionResult) (p' : Plan) (s' : Agent) :
  _execute_action clock a p ta s = Ok (r, p') s' -> status p' = status p.
Proof.
  unfold _execute_action.
  destruct (String.eqb (a_type a) "execute_step").
  - unfold _execute_planning_step, bind, subscript.
    destruct (a_step a) as [step|]; simpl; [|done].
    destruct (a_step_index a) as [idx|]; simpl; [|done].
    destruct (str_in "weather" (lower step)).
    { unfold _execute_weather_step, bind, py_get.
      destruct ta; simpl; try done. intros [= _ <- _]. reflexivity. }
    destruct (str_in "activity" (lower step));
      [simpl; intros [= _ <- _]; reflexivity|].
    destruct (str_in "contingency" (lower step));
      simpl; intros [= _ <- _]; reflexivity.
  - destruct (String.eqb (a_type a) "finalize_plan"); simpl; [done|].
    intros [= _ <- _]. reflexivity.
Qed.

Lemma finalize_plan_status (p : Plan) (s : Agent) (p' : Plan) (s' : Agent) :
  _finalize_plan clock py_str format_percent p s = Ok p' s' ->
  status p' = "completed".
Proof.
  unfold _finalize_plan, _generate_plan_summary, format_confidence, bind. simpl.
  destruct (as_number (confidence p)); simpl.
  - intros [= <- _]. reflexivity.
  - destruct (confidence p); simpl; done.
Qed.

(** C4 (amended) - The status field takes one of four values, and these are
    all the places that write it: the Plan Builder sets ["planning"]; an
    action leaves it as it is; the update after an action sets
    ["planning_in_progress"] when the action succeeded and
    ["planning_failed"] when it did not; [_finalize_plan] sets
    ["completed"], whatever the status was; so a planning run that returns,
    returns a plan with status ["completed"]. *)
Theorem C4_status_values_and_transitions :
  (forall ta s p s',
     _create_initial_plan clock ta s = Ok p s' -> status p = "planning") /\
  (forall a p ta s r p' s',
     _execute_action clock a p ta s = Ok (r, p') s' -> status p' = status p) /\
  (forall p r s p' s',
     _update_plan_based_on_result clock p r s = Ok p' s' ->
     status p' = if r_success r then "planning_in_progress" else "planning_failed") /\
  (forall p s p' s',
     _finalize_plan clock py_str format_percent p s = Ok p' s' ->
     status p' = "completed") /\
  (forall fuel task s p s',
     plan_weather_activity ollama json_loads clock py_str format_percent fuel task s
       = Ok p s' ->
     status p = "completed").
Proof.
  split; [|split; [|split; [|split]]].
  - intros ta s p s' H. apply create_initial_plan_spec in H. tauto.
  - intros a p ta s r p' s'. apply execute_action_status.
  - intros p r s p' s' H. pose proof (update_plan_spec p r s) as Hup.
    rewrite H in Hup. destruct Hup as (_ & Hst & _). exact Hst.
  - intros p s p' s'. apply finalize_plan_status.
  - intros fuel task s p s' H. unfold plan_weather_activity, bind in H.
    destruct (_analyze_task ollama json_loads task s) as [ta s1|e s1|]; try done.
    destruct (_create_initial_plan clock ta s1) as [p0 s2|e s2|]; try done.
    destruct (_execute_planning_iterations ollama json_loads clock fuel p0 ta s2)
      as [p1 s3|e s3|]; try done.
    destruct (_finalize_plan clock py_str format_percent p1 s3)
      as [p2 s4|e s4|] eqn:Hfin; try done.
    injection H as <- <-. eapply finalize_plan_status. exact Hfin.
Qed.

End ReActProperties.

(** ** Worked examples of the ReAct planner *)

Section ReActExamples.
Import Py ReAct.



(** C2 at the sample plan with the generation endpoint down. *)
Lemma C2_witness :
  exists s',
    final_state (_execute_planning_iterations offline no_json frozen_clock 6
                   sample_plan default_analysis sample_agent) = Some s' /\
    (ReAct.ollama_calls s' <= ReAct.ollama_calls sample_agent + 5)%nat /\
    (length (printed_actions s') <= length (printed_actions sample_agent) + 5)%nat /\
    (length (planning_history s') <= length (planning_history sample_agent) + 5)%nat.
Proof.
  apply (C2_at_most_max_planning_iterations offline no_json frozen_clock 6
           sample_plan default_analysis sample_agent).
  unfold MAX_PLANNING_ITERATIONS. lia.
Defined.



(** C4, the claim as stated fails - After the first iteration the status of
    the plan is ["planning_in_progress"], none of the three claimed values. *)
Lemma C4_counterexample_planning_in_progress :
  exists p' b s',
    _create_initial_plan frozen_clock default_analysis (bump_calls new_agent)
      = Ok sample_plan sample_agent /\
    planning_cycle offline no_json frozen_clock sample_plan default_analysis
      sample_agent = Ok (p', b) s' /\
    status p' = "planning_in_progress" /\
    ~ In (status p') claimed_statuses.
Proof.
  eexists _, _, _.
  split; [vm_compute; reflexivity|].
  split; [vm_compute; reflexivity|].
  split; [reflexivity|].
  simpl. intros [H|[H|[H|[]]]]; discriminate H.
Qed.

(** The amended C4 at the sample plan and a successful action. *)
Lemma C4_witness :
  status sample_plan = "planning" /\
  exists p' s',
    _update_plan_based_on_result frozen_clock sample_plan sample_result sample_agent
      = Ok p' s' /\
    status p' = "planning_in_progress".
Proof.
  destruct (C4_status_values_and_transitions offline no_json frozen_clock
              no_text no_percent) as (Hcreate & _ & Hupdate & _).
  split.
  - apply (Hcreate default_analysis (bump_calls new_agent) sample_plan sample_agent).
    vm_compute. reflexivity.
  - destruct (_update_plan_based_on_result frozen_clock sample_plan sample_result
                sample_agent) as [p' s'|e s'|] eqn:E.
    + exists p', s'. split; [reflexivity|].
      apply (Hupdate sample_plan sample_result sample_agent p' s' E).
    + vm_compute in E. discriminate E.
    + vm_compute in E. discriminate E.
Defined.

(** C5 with the generation endpoint down at every request. *)
Lemma C5_witness :
  exists s',
    _analyze_task offline no_json weekend_task new_agent = Ok default_analysis s' /\
    ReAct.ollama_calls s' = S (ReAct.ollama_calls new_agent).
Proof.
  apply (C5_analyze_task_falls_back_to_default offline no_json).
  intros n. left. apply cr_connection.
Defined.

(** C6 at the literal weekend task with the generation endpoint down: the
    run returns, with five completed steps. *)
Lemma C6_witness :
  match plan_weather_activity offline no_json frozen_clock no_text no_percent 6
          weekend_task new_agent with
  | Ok plan s' =>
      length (steps plan) = 5%nat /\
      length (deref (heap s') (completed_steps plan)) = 5%nat /\
      map cs_step_index (deref (heap s') (completed_steps plan)) = [0; 1; 2; 3; 4]%nat
  | _ => False
  end.
Proof.
  destruct (plan_weather_activity offline no_json frozen_clock no_text no_percent 6
              weekend_task new_agent) as [plan s'|e s'|] eqn:Hrun.
  - apply (C6_five_completed_steps offline no_json frozen_clock no_text no_percent
             6 weekend_task new_agent plan s').
    + unfold MAX_PLANNING_ITERATIONS. lia.
    + exact Hrun.
  - vm_compute in Hrun. discriminate Hrun.
  - vm_compute in Hrun. discriminate Hrun.
Defined.

(** C9, the code at a failing input - The generation endpoint is down, so
    the default analysis is used.  The first history entry is appended in
    the first iteration; at that time the plan it holds shows one completed
    step.  After the run the same entry is still first in the history, its
    [current_step] still says 1, and the plan it holds shows five completed
    steps: the copy shares the [completed_steps] list with the live plan. *)
Lemma C9_snapshot_changes_after_append :
  exists p1 b1 s1 e0 p' s',
    _analyze_task offline no_json weekend_task new_agent
      = Ok default_analysis (bump_calls new_agent) /\
    _create_initial_plan frozen_clock default_analysis (bump_calls new_agent)
      = Ok sample_plan sample_agent /\
    planning_cycle offline no_json frozen_clock sample_plan default_analysis
      sample_agent = Ok (p1, b1) s1 /\
    planning_history s1 = [e0] /\
    length (deref (heap s1) (completed_steps (h_plan_state e0))) = 1%nat /\
    _execute_planning_iterations offline no_json frozen_clock 6 sample_plan
      default_analysis sample_agent = Ok p' s' /\
    planning_history s' !! 0%nat = Some e0 /\
    current_step (h_plan_state e0) = 1%nat /\
    length (deref (heap s') (completed_steps (h_plan_state e0))) = 5%nat.
Proof.
  eexists _, _, _, _, _, _.
  split; [vm_compute; reflexivity|].
  split; [vm_compute; reflexivity|].
  split; [vm_compute; reflexivity|].
  split; [vm_compute; reflexivity|].
  split; [vm_compute; reflexivity|].
  split; [vm_compute; reflexivity|].
  split; [vm_compute; reflexivity|].
  split; vm_compute; reflexivity.
Qed.


End ReActExamples.

(** * Properties of the fixed-automation reporters *)

Section ReporterProperties.
Import Py Reporter WeatherAgent.

(** **** File names *)

Lemma string_app_inv_head (s a b : string) : s +:+ a = s +:+ b -> a = b.
Proof.
  induction s as [|c s IH]; simpl; [done|].
  intros [= H]. auto.
Qed.

Lemma string_app_inv_tail (a b s : string) :
  String.length a = String.length b -> a +:+ s = b +:+ s -> a = b.
Proof.
  revert b. induction a as [|c a IH]; intros [|d b]; simpl; try done.
  intros [= Hl] [= -> H]. f_equal. auto.
Qed.

Lemma path_join_inj (a b1 b2 : string) : path_join a b1 = path_join a b2 -> b1 = b2.
Proof.
  unfold path_join.
  destruct (String.eqb a ""); [done|].
  destruct (endswith a "/").
  - apply string_app_inv_head.
  - intros H. apply string_app_inv_head in H. apply (string_app_inv_head "/"). exact H.
Qed.

Lemma digit_inj (a b : nat) : (a < 10)%nat -> (b < 10)%nat -> digit a = digit b -> a = b.
Proof.
  unfold digit. intros Ha Hb H. apply (f_equal nat_of_ascii) in H.
  rewrite !nat_ascii_embedding in H by lia. lia.
Qed.

Lemma mod10_lt (n : nat) : (n mod 10 < 10)%nat.
Proof. apply Nat.mod_upper_bound. lia. Qed.

Lemma pad2_digits (n : nat) :
  pad2 n = String (digit (n / 10 mod 10)) (String (digit (n mod 10)) EmptyString).
Proof. reflexivity. Qed.

Lemma pad4_digits (n : nat) :
  pad4 n = String (digit (n / 1000 mod 10)) (String (digit (n / 100 mod 10)) (pad2 n)).
Proof. reflexivity. Qed.

Lemma string_cons_inj (a b : ascii) (x y : string) :
  String a x = String b y -> a = b /\ x = y.
Proof. intros [= -> ->]. done. Qed.

Lemma pad2_inj (n m : nat) : (n < 100)%nat -> (m < 100)%nat -> pad2 n = pad2 m -> n = m.
Proof.
  intros Hn Hm H. rewrite !pad2_digits in H.
  apply string_cons_inj in H as (H1 & H).
  apply string_cons_inj in H as (H2 & _).
  pose proof (digit_inj _ _ (mod10_lt _) (mod10_lt _) H1) as E1.
  pose proof (digit_inj _ _ (mod10_lt _) (mod10_lt _) H2) as E2.
  clear H1 H2. lia.
Qed.

Lemma pad4_inj (n m : nat) :
  (Z.of_nat n < 10000)%Z -> (Z.of_nat m < 10000)%Z -> pad4 n = pad4 m -> n = m.
Proof.
  intros Hn Hm H. rewrite !pad4_digits, !pad2_digits in H.
  apply string_cons_inj in H as (H1 & H).
  apply string_cons_inj in H as (H2 & H).
  apply string_cons_inj in H as (H3 & H).
  apply string_cons_inj in H as (H4 & _).
  pose proof (digit_inj _ _ (mod10_lt _) (mod10_lt _) H1) as E1.
  pose proof (digit_inj _ _ (mod10_lt _) (mod10_lt _) H2) as E2.
  pose proof (digit_inj _ _ (mod10_lt _) (mod10_lt _) H3) as E3.
  pose proof (digit_inj _ _ (mod10_lt _) (mod10_lt _) H4) as E4.
  clear H1 H2 H3 H4. lia.
Qed.

Lemma strftime_length (t : datetime) : String.length (strftime_Ymd_HMS t) = 15%nat.
Proof. reflexivity. Qed.

Lemma string_app_cons (a : ascii) (s x : string) :
  String a s +:+ x = String a (s +:+ x).
Proof. reflexivity. Qed.

Lemma string_app_empty (x : string) : EmptyString +:+ x = x.
Proof. reflexivity. Qed.

Lemma pad2_app_inj (n m : nat) (x y : string) :
  (n < 100)%nat -> (m < 100)%nat -> pad2 n +:+ x = pad2 m +:+ y -> n = m /\ x = y.
Proof.
  intros Hn Hm H.
  rewrite !pad2_digits, !string_app_cons, !string_app_empty in H.
  apply string_cons_inj in H as (H1 & H).
  apply string_cons_inj in H as (H2 & H).
  split; [|exact H].
  apply pad2_inj; [done|done|]. rewrite !pad2_digits. congruence.
Qed.

Lemma pad4_app_inj (n m : nat) (x y : string) :
  (Z.of_nat n < 10000)%Z -> (Z.of_nat m < 10000)%Z ->
  pad4 n +:+ x = pad4 m +:+ y -> n = m /\ x = y.
Proof.
  intros Hn Hm H.
  rewrite !pad4_digits, !pad2_digits, !string_app_cons, !string_app_empty in H.
  apply string_cons_inj in H as (H1 & H).
  apply string_cons_inj in H as (H2 & H).
  apply string_cons_inj in H as (H3 & H).
  apply string_cons_inj in H as (H4 & H).
  split; [|exact H].
  apply pad4_inj; [done|done|]. rewrite !pad4_digits, !pad2_digits. congruence.
Qed.

Lemma strftime_inj (t1 t2 : datetime) :
  valid_datetime t1 -> valid_datetime t2 ->
  strftime_Ymd_HMS t1 = strftime_Ymd_HMS t2 -> same_second t1 t2.
Proof.
  intros (Hy1 & (Hm1 & Hd1 & Hh1 & Hmi1 & Hs1) & _)
         (Hy2 & (Hm2 & Hd2 & Hh2 & Hmi2 & Hs2) & _).
  unfold strftime_Ymd_HMS. intros H.
  apply pad4_app_inj in H as (Ey & H); [|lia|lia].
  apply pad2_app_inj in H as (Em & H); [|lia|lia].
  apply pad2_app_inj in H as (Ed & H); [|lia|lia].
  apply (string_app_inv_head "_") in H.
  apply pad2_app_inj in H as (Eh & H); [|lia|lia].
  apply pad2_app_inj in H as (Emi & H); [|lia|lia].
  apply pad2_inj in H as Es; [|lia|lia].
  unfold same_second. done.
Qed.

Lemma strftime_same_second (t1 t2 : datetime) :
  same_second t1 t2 -> strftime_Ymd_HMS t1 = strftime_Ymd_HMS t2.
Proof.
  intros (E1 & E2 & E3 & E4 & E5 & E6). unfold strftime_Ymd_HMS.
  rewrite E1, E2, E3, E4, E5, E6. reflexivity.
Qed.

Variable OUTPUT_DIR : string.
Variable requests : nat -> http_outcome.
Variable clock : nat -> datetime.
Variable py_str : pyval -> string.
Variable str_title : string -> string.
Variable str_strip : string -> string.


Lemma save_report_spec (report : string) (w : World) :
  save_report OUTPUT_DIR clock report w
  = Ok (path_join OUTPUT_DIR
          ("weather_report_" +:+ strftime_Ymd_HMS (clock (clock_reads w)) +:+ ".txt"))
       {| files := <[ path_join OUTPUT_DIR
                        ("weather_report_" +:+
                         strftime_Ymd_HMS (clock (clock_reads w)) +:+ ".txt")
                      := report ]> (files w);
          requests_made := requests_made w;
          clock_reads := S (clock_reads w) |}.
Proof. reflexivity. Qed.

(** C8 (amended) - Two calls to [save_report] return file names that are
    the output directory joined with ["weather_report_"], a timestamp of
    fifteen characters and [".txt"], so they can differ only in the
    timestamp; they are distinct exactly when the two readings of the clock
    do not fall into the same second. *)
Theorem C8_file_names_differ_iff_seconds_differ
  (report1 report2 : string) (w1 w2 : World) :
  valid_datetime (clock (clock_reads w1)) ->
  valid_datetime (clock (clock_reads w2)) ->
  exists ts1 ts2 w1' w2',
    save_report OUTPUT_DIR clock report1 w1
      = Ok (path_join OUTPUT_DIR ("weather_report_" +:+ ts1 +:+ ".txt")) w1' /\
    save_report OUTPUT_DIR clock report2 w2
      = Ok (path_join OUTPUT_DIR ("weather_report_" +:+ ts2 +:+ ".txt")) w2' /\
    String.length ts1 = 15%nat /\ String.length ts2 = 15%nat /\
    (path_join OUTPUT_DIR ("weather_report_" +:+ ts1 +:+ ".txt")
       <> path_join OUTPUT_DIR ("weather_report_" +:+ ts2 +:+ ".txt")
     <-> ~ same_second (clock (clock_reads w1)) (clock (clock_reads w2))).
Proof.
  intros Hv1 Hv2.
  eexists _, _, _, _.
  split; [apply save_report_spec|].
  split; [apply save_report_spec|].
  split; [apply strftime_length|].
  split; [apply strftime_length|].
  split.
  - intros Hne Hsame. apply Hne. rewrite (strftime_same_second _ _ Hsame). reflexivity.
  - intros Hns Heq. apply Hns.
    apply path_join_inj, (string_app_inv_head "weather_report_") in Heq.
    apply string_app_inv_tail in Heq; [|rewrite !strftime_length; reflexivity].
    apply strftime_inj; assumption.
Qed.

(** **** Failures *)

Lemma fetch_fails (w : World) :
  request_fails (requests (requests_made w)) ->
  exists e, fetch_weather_data requests w
            = Raise e {| files := files w; requests_made := S (requests_made w);
                         clock_reads := clock_reads w |}.
Proof.
  unfold fetch_weather_data, bind, http_request.
  intros H. inversion H as [ | | c b t Hc Heq ]; simpl; eauto.
  apply Nat.eqb_neq in Hc. rewrite Hc. simpl. eauto.
Qed.

Lemma call_ollama_fails (w : World) :
  request_fails (requests (requests_made w)) ->
  exists e, WeatherAgent._call_ollama_api requests w
            = Raise e {| files := files w; requests_made := S (requests_made w);
                         clock_reads := clock_reads w |}.
Proof.
  unfold WeatherAgent._call_ollama_api, try_except, bind, http_request.
  intros H. inversion H as [ | | c b t Hc Heq ]; simpl; eauto.
  apply Nat.eqb_neq in Hc. rewrite Hc. simpl. eauto.
Qed.

Lemma dino_fetch_fails (name description : string) (w : World) :
  request_fails (requests (requests_made w)) ->
  exists e, DinoAgent.fetch_dino_data requests name description w
            = Raise e {| files := files w; requests_made := S (requests_made w);
                         clock_reads := clock_reads w |}.
Proof.
  unfold DinoAgent.fetch_dino_data, bind, http_request.
  intros H. inversion H as [ | | c b t Hc Heq ]; simpl; eauto.
  apply Nat.eqb_neq in Hc. rewrite Hc. simpl. eauto.
Qed.

Lemma dino_call_ollama_fails (w : World) :
  request_fails (requests (requests_made w)) ->
  exists e, DinoAgent._call_ollama_api requests w
            = Raise e {| files := files w; requests_made := S (requests_made w);
                         clock_reads := clock_reads w |}.
Proof.
  unfold DinoAgent._call_ollama_api, try_except, bind, http_request.
  intros H. inversion H as [ | | c b t Hc Heq ]; simpl; eauto.
  apply Nat.eqb_neq in Hc. rewrite Hc. simpl. eauto.
Qed.

(** C7 (amended) - In both fixed-automation examples, a failure of the
    request that fetches the data (no connection, timeout, status other than
    200) aborts the run: [run] returns [False] and no file is written.  A
    failure of the request to the generation endpoint inside
    [generate_report] does not: it is caught, the basic report is generated
    instead, saved, and [run] returns [True]. *)
Theorem C7_fetch_failure_aborts_generation_failure_falls_back :
  (forall w,
     request_fails (requests (requests_made w)) ->
     exists w',
       run OUTPUT_DIR requests clock py_str str_title str_strip w = Ok false w' /\
       files w' = files w) /\
  (forall w weather_data w1 parsed_data w2 description,
     fetch_weather_data requests w = Ok weather_data w1 ->
     parse_weather_data clock weather_data w1 = Ok parsed_data w2 ->
     pd_description parsed_data = PStr description ->
     request_fails (requests (requests_made w2)) ->
     exists report w',
       run OUTPUT_DIR requests clock py_str str_title str_strip w = Ok true w' /\
       report = report_head py_str parsed_data (str_title description) +:+
                "Report generated by Fixed Automation Weather Agent" +:+ nl /\
       files w' !! path_join OUTPUT_DIR
                     ("weather_report_" +:+
                      strftime_Ymd_HMS (clock (clock_reads w2)) +:+ ".txt")
         = Some report) /\
  (forall w,
     request_fails (requests (requests_made w)) ->
     exists w',
       DinoAgent.run OUTPUT_DIR requests clock py_str str_strip w = Ok false w' /\
       files w' = files w) /\
  (forall w dino_data w1 parsed_data w2,
     DinoAgent.fetch_dino_data requests "Tyrannosaurus"
       "Large carnivorous dinosaur" w = Ok dino_data w1 ->
     DinoAgent.parse_dino_data clock dino_data w1 = Ok parsed_data w2 ->
     request_fails (requests (requests_made w2)) ->
     exists w',
       DinoAgent.run OUTPUT_DIR requests clock py_str str_strip w = Ok true w' /\
       files w' !! path_join OUTPUT_DIR
                     ("dinosaur_report_" +:+
                      strftime_Ymd_HMS (clock (clock_reads w2)) +:+ ".txt")
         = Some (DinoAgent.basic_report py_str parsed_data)).
Proof.
  split; [|split; [|split]].
  - intros w Hfail. unfold run, try_except, bind.
    destruct (fetch_fails w Hfail) as [e ->]. simpl. eauto.
  - intros w weather_data w1 parsed_data w2 description Hfetch Hparse Hdesc Hfail.
    unfold run, try_except, bind. rewrite Hfetch, Hparse.
    unfold generate_report, try_except, bind.
    destruct (call_ollama_fails w2 Hfail) as [e ->].
    unfold basic_report, bind, title. rewrite Hdesc. simpl.
    eexists _, _. split; [reflexivity|]. split; [reflexivity|].
    apply lookup_insert_eq.
  - intros w Hfail. unfold DinoAgent.run, try_except, bind.
    destruct (dino_fetch_fails "Tyrannosaurus" "Large carnivorous dinosaur" w Hfail)
      as [e ->].
    simpl. eauto.
  - intros w dino_data w1 parsed_data w2 Hfetch Hparse Hfail.
    unfold DinoAgent.run, try_except, bind. rewrite Hfetch, Hparse.
    unfold DinoAgent.generate_report, try_except, bind.
    destruct (dino_call_ollama_fails w2 Hfail) as [e ->]. simpl.
    eexists. split; [reflexivity|].
    apply lookup_insert_eq.
Qed.

End ReporterProperties.

(** ** Worked examples of the fixed-automation reporters *)

Section ReporterExamples.
Import Py Reporter WeatherAgent.

(** C7, the claim as stated fails - The weather service answers and the
    request to the generation endpoint fails with a connection error: the
    run is not aborted, it returns [True] after two requests, and the report
    file has been written. *)
Lemma C7_counterexample_report_after_failure :
  request_fails (ollama_down 1) /\
  exists w' report,
    run "output" ollama_down fast_clock no_text same_text same_text new_world
      = Ok true w' /\
    requests_made w' = 2%nat /\
    files w' !! "output/weather_report_20240517_090307.txt" = Some report.
Proof.
  split; [apply rf_connection|].
  eexists _, _.
  split; [vm_compute; reflexivity|].
  split; [reflexivity|].
  vm_compute. reflexivity.
Qed.

(** The amended C7 in four worlds: the weather service refuses the key;
    the weather service answers and the generation endpoint is down; the
    dinosaur service cannot be reached; the dinosaur service answers and the
    generation endpoint times out. *)
Lemma C7_witness :
  (exists w',
     run "output" weather_api_refuses fast_clock no_text same_text same_text
       new_world = Ok false w' /\
     files w' = files new_world) /\
  (exists report w',
     run "output" ollama_down fast_clock no_text same_text same_text new_world
       = Ok true w' /\
     report = report_head no_text parsed_sample (same_text "light rain") +:+
              "Report generated by Fixed Automation Weather Agent" +:+ nl /\
     files w' !! path_join "output"
                   ("weather_report_" +:+
                    strftime_Ymd_HMS (fast_clock (clock_reads world_after_parse))
                    +:+ ".txt")
       = Some report) /\
  (exists w',
     DinoAgent.run "output" DinoAgent.unreachable fast_clock no_text same_text
       new_world = Ok false w' /\
     files w' = files new_world) /\
  (exists w',
     DinoAgent.run "output" DinoAgent.ollama_times_out fast_clock no_text same_text
       new_world = Ok true w' /\
     files w' !! path_join "output"
                   ("dinosaur_report_" +:+
                    strftime_Ymd_HMS (fast_clock (clock_reads world_after_parse))
                    +:+ ".txt")
       = Some (DinoAgent.basic_report no_text DinoAgent.parsed_sample)).
Proof.
  split; [|split; [|split]].
  - destruct (C7_fetch_failure_aborts_generation_failure_falls_back "output"
                weather_api_refuses fast_clock no_text same_text same_text)
      as (Habort & _).
    apply (Habort new_world). apply rf_status. simpl. lia.
  - destruct (C7_fetch_failure_aborts_generation_failure_falls_back "output"
                ollama_down fast_clock no_text same_text same_text)
      as (_ & Hfallback & _).
    apply (Hfallback new_world weather_body world_after_fetch parsed_sample
             world_after_parse "light rain").
    + vm_compute. reflexivity.
    + vm_compute. reflexivity.
    + reflexivity.
    + apply rf_connection.
  - destruct (C7_fetch_failure_aborts_generation_failure_falls_back "output"
                DinoAgent.unreachable fast_clock no_text same_text same_text)
      as (_ & _ & Habort & _).
    apply (Habort new_world). apply rf_connection.
  - destruct (C7_fetch_failure_aborts_generation_failure_falls_back "output"
                DinoAgent.ollama_times_out fast_clock no_text same_text same_text)
      as (_ & _ & _ & Hfallback).
    apply (Hfallback new_world DinoAgent.dino_body world_after_fetch
             DinoAgent.parsed_sample world_after_parse).
    + vm_compute. reflexivity.
    + vm_compute. reflexivity.
    + apply rf_timeout.
Defined.

(** C8, the claim as stated fails - Two calls to [save_report] one after the
    other, the clock read twice within the same second: both calls return
    the same file name, and the second report has replaced the first. *)
Lemma C8_counterexample_same_second :
  exists f1 w1 f2 w2,
    save_report "output" fast_clock "first report" new_world = Ok f1 w1 /\
    save_report "output" fast_clock "second report" w1 = Ok f2 w2 /\
    fast_clock (clock_reads new_world) <> fast_clock (clock_reads w1) /\
    f1 = f2 /\
    files w2 !! f1 = Some "second report".
Proof.
  eexists _, _, _, _.
  split; [vm_compute; reflexivity|].
  split; [vm_compute; reflexivity|].
  split; [simpl; discriminate|].
  split; [reflexivity|].
  vm_compute. reflexivity.
Qed.

(** The amended C8 with a clock that advances by one second per reading. *)
Lemma C8_witness :
  exists ts1 ts2 w1' w2',
    save_report "output" slow_clock "first report" new_world
      = Ok (path_join "output" ("weather_report_" +:+ ts1 +:+ ".txt")) w1' /\
    save_report "output" slow_clock "second report" world_after_parse
      = Ok (path_join "output" ("weather_report_" +:+ ts2 +:+ ".txt")) w2' /\
    String.length ts1 = 15%nat /\ String.length ts2 = 15%nat /\
    (path_join "output" ("weather_report_" +:+ ts1 +:+ ".txt")
       <> path_join "output" ("weather_report_" +:+ ts2 +:+ ".txt")
     <-> ~ same_second (slow_clock (clock_reads new_world))
             (slow_clock (clock_reads world_after_parse))).
Proof.
  apply (C8_file_names_differ_iff_seconds_differ "output" slow_clock
           "first report" "second report" new_world world_after_parse).
  - unfold valid_datetime. simpl. lia.
  - unfold valid_datetime. simpl. lia.
Defined.

End ReporterExamples.

(** * Further properties of the ReAct planner *)

(** ** Relations every method keeps *)

Section Preserves.
Import Py ReAct.

Variable R : Agent -> Agent -> Prop.
Hypothesis R_refl : forall s, R s s.
Hypothesis R_trans : forall s1 s2 s3, R s1 s2 -> R s2 s3 -> R s1 s3.

Lemma preserves_ret {A} (a : A) : preserves R (ret a).
Proof using R_refl. intros s. simpl. apply R_refl. Qed.

Lemma preserves_raise {A} (e : exn) : preserves R (raise (A := A) e).
Proof using R_refl. intros s. simpl. apply R_refl. Qed.

Lemma preserves_get_state : preserves R get_state.
Proof using R_refl. intros s. simpl. apply R_refl. Qed.

Lemma preserves_bind {A B} (m : M A) (k : A -> M B) :
  preserves R m -> (forall a, preserves R (k a)) -> preserves R (bind m k).
Proof using R_trans.
  intros Hm Hk s. unfold bind. specialize (Hm s).
  destruct (m s) as [a s1|e s1|]; simpl in *; [|exact Hm|exact I].
  specialize (Hk a s1).
  destruct (k a s1) as [b s2|e s2|]; simpl in *; eauto.
Qed.

Lemma preserves_try_except {A} (m : M A) (h : exn -> M A) :
  preserves R m -> (forall e, preserves R (h e)) -> preserves R (try_except m h).
Proof using R_trans.
  intros Hm Hh s. unfold try_except. specialize (Hm s).
  destruct (m s) as [a s1|e s1|]; simpl in *; [exact Hm| |exact I].
  specialize (Hh e s1).
  destruct (h e s1) as [b s2|e' s2|]; simpl in *; eauto.
Qed.

End Preserves.

Ltac preserves_step Rrefl Rtrans :=
  first
    [ apply (preserves_ret _ Rrefl)
    | apply (preserves_raise _ Rrefl)
    | apply (preserves_get_state _ Rrefl)
    | apply (preserves_bind _ Rtrans)
    | apply (preserves_try_except _ Rtrans)
    | progress intros
    | assumption
    | match goal with
      | |- ReAct.preserves _ (match ?x with _ => _ end) => destruct x
      | |- ReAct.preserves _ (if ?b then _ else _) => destruct b
      end ].

Section CurrentPlan.
Import Py ReAct.

Variable ollama : nat -> http_outcome.
Variable json_loads : string -> option pyval.
Variable clock : nat -> datetime.

Lemma scp_refl (s : Agent) : same_current_plan s s.
Proof. reflexivity. Qed.

Lemma scp_trans (s1 s2 s3 : Agent) :
  same_current_plan s1 s2 -> same_current_plan s2 s3 -> same_current_plan s1 s3.
Proof. unfold same_current_plan. congruence. Qed.

Lemma scp_now_isoformat : preserves same_current_plan (now_isoformat clock).
Proof. intros s. reflexivity. Qed.

Lemma scp_requests_post : preserves same_current_plan (requests_post ollama).
Proof. intros s. unfold requests_post. destruct (ollama _); reflexivity. Qed.

Lemma scp_alloc_list : preserves same_current_plan alloc_list.
Proof. intros s. reflexivity. Qed.

Lemma scp_list_append (l : loc) (x : CompletedStep) :
  preserves same_current_plan (list_append l x).
Proof. intros s. reflexivity. Qed.

Lemma scp_set_planning_iteration (n : nat) :
  preserves same_current_plan (set_planning_iteration n).
Proof. intros s. reflexivity. Qed.

Lemma scp_history_append (e : HistoryEntry) :
  preserves same_current_plan (history_append e).
Proof. intros s. reflexivity. Qed.

Lemma scp_print_action (a : Action) : preserves same_current_plan (print_action a).
Proof. intros s. reflexivity. Qed.

Ltac scp :=
  repeat first
    [ preserves_step scp_refl scp_trans
    | apply scp_now_isoformat | apply scp_requests_post | apply scp_alloc_list
    | apply scp_list_append | apply scp_set_planning_iteration
    | apply scp_history_append | apply scp_print_action
    | progress unfold response_json, loads, py_get, lookup_template, subscript,
        add_float, ge_float, format_confidence ].

Lemma scp_call_ollama_api : preserves same_current_plan (_call_ollama_api ollama).
Proof. unfold _call_ollama_api, response_json. scp. Qed.

Lemma scp_loads (v : pyval) : preserves same_current_plan (loads json_loads v).
Proof. unfold loads. scp. Qed.

Lemma scp_analyze_task (task : string) :
  preserves same_current_plan (_analyze_task ollama json_loads task).
Proof. unfold _analyze_task. scp. Qed.

Lemma scp_py_get (v : pyval) (k : string) (d : pyval) :
  preserves same_current_plan (py_get v k d).
Proof. unfold py_get. scp. Qed.

Lemma scp_lookup_template (tt : pyval) : preserves same_current_plan (lookup_template tt).
Proof. unfold lookup_template. scp. Qed.

Lemma scp_create_initial_plan (ta : pyval) :
  preserves same_current_plan (_create_initial_plan clock ta).
Proof.
  unfold _create_initial_plan. scp.
Qed.

Lemma scp_reason (p : Plan) (ta : pyval) :
  preserves same_current_plan (_reason_about_current_state ollama json_loads p ta).
Proof.
  unfold _reason_about_current_state.
  scp.
Qed.

Lemma scp_determine_next_action (p : Plan) (v : pyval) :
  preserves same_current_plan (_determine_next_action p v).
Proof. unfold _determine_next_action. scp. Qed.

Lemma scp_execute_planning_step (a : Action) (p : Plan) (ta : pyval) :
  preserves same_current_plan (_execute_planning_step clock a p ta).
Proof.
  unfold _execute_planning_step, subscript, _execute_weather_step,
    _execute_activity_step, _execute_contingency_step, _execute_general_step.
  scp.
Qed.

Lemma scp_execute_action (a : Action) (p : Plan) (ta : pyval) :
  preserves same_current_plan (_execute_action clock a p ta).
Proof. unfold _execute_action. scp. Qed.

Lemma scp_update_plan (p : Plan) (r : ActionResult) :
  preserves same_current_plan (_update_plan_based_on_result clock p r).
Proof. unfold _update_plan_based_on_result, add_float. scp. Qed.

Lemma scp_is_planning_complete (p : Plan) :
  preserves same_current_plan (_is_planning_complete p).
Proof. unfold _is_planning_complete, ge_float. scp. Qed.

Lemma scp_planning_cycle (p : Plan) (ta : pyval) :
  preserves same_current_plan (planning_cycle ollama json_loads clock p ta).
Proof.
  unfold planning_cycle.
  scp; first [ apply scp_reason | apply scp_determine_next_action
             | apply scp_execute_action | apply scp_update_plan
             | apply scp_is_planning_complete ].
Qed.

Lemma scp_while_planning (fuel : nat) :
  forall (p : Plan) (ta : pyval),
  preserves same_current_plan (while_planning ollama json_loads clock fuel p ta).
Proof.
  induction fuel as [|fuel IH]; intros p ta; [intros s; exact I|].
  simpl.
  scp; first [ apply IH | apply scp_reason | apply scp_determine_next_action
             | apply scp_execute_action | apply scp_update_plan
             | apply scp_is_planning_complete ].
Qed.

Lemma scp_execute_planning_iterations (fuel : nat) (p : Plan) (ta : pyval) :
  preserves same_current_plan
    (_execute_planning_iterations ollama json_loads clock fuel p ta).
Proof. unfold _execute_planning_iterations. scp. apply scp_while_planning. Qed.

Lemma create_initial_plan_ends (ta : pyval) (s : Agent) :
  _create_initial_plan clock ta s <> OutOfFuel.
Proof.
  unfold _create_initial_plan, bind, py_get.
  destruct ta as [| | | | |d]; simpl; try discriminate.
  pose proof (lookup_template_spec
                (dict_get d "task_type" (PStr "general_weather_planning")) s) as Ht.
  destruct (lookup_template _ s) as [l s1|e s1|]; [|discriminate|done].
  simpl. discriminate.
Qed.

Lemma execute_planning_iterations_ends (fuel : nat) (p : Plan) (ta : pyval)
  (s : Agent) :
  (MAX_PLANNING_ITERATIONS < fuel)%nat ->
  _execute_planning_iterations ollama json_loads clock fuel p ta s <> OutOfFuel.
Proof.
  intros Hfuel H.
  destruct (while_planning_bound ollama json_loads clock fuel p ta
              (with_iteration 0 s)) as (s' & Hf & _);
    [unfold MAX_PLANNING_ITERATIONS in *; simpl; lia|].
  rewrite <- execute_planning_iterations_unfold, H in Hf. discriminate Hf.
Qed.

Variable py_str : pyval -> string.
Variable format_percent : Q -> string.

Lemma finalize_plan_current_plan (p : Plan) (s : Agent) :
  match _finalize_plan clock py_str format_percent p s with
  | Ok p' s' => current_plan s' = Some p'
  | Raise e s' => current_plan s' = current_plan s
  | OutOfFuel => False
  end.
Proof.
  unfold _finalize_plan, _generate_plan_summary, format_confidence, bind. simpl.
  destruct (as_number (confidence p)); simpl; [reflexivity|].
  destruct (confidence p); reflexivity.
Qed.

Lemma get_current_plan_eq (s : Agent) :
  get_current_plan s = Ok (current_plan s) s.
Proof. reflexivity. Qed.

(** X1 - After a planning call that returns, [get_current_plan] returns the
    plan the call returned; after a planning call that raises, it still
    returns the plan of the last call that returned (or [None]). *)
Theorem current_plan_after_planning (fuel : nat) (task : string) (s : Agent) :
  (MAX_PLANNING_ITERATIONS < fuel)%nat ->
  match plan_weather_activity ollama json_loads clock py_str format_percent
          fuel task s with
  | Ok p s' => get_current_plan s' = Ok (Some p) s'
  | Raise e s' => get_current_plan s' = Ok (current_plan s) s'
  | OutOfFuel => False
  end.
Proof.
  intros Hfuel.
  unfold plan_weather_activity, bind.
  destruct (analyze_task_state ollama json_loads task s) as [ta ->].
  pose proof (scp_create_initial_plan ta (bump_calls s)) as H2.
  destruct (_create_initial_plan clock ta (bump_calls s)) as [p0 s2|e s2|] eqn:Hc;
    unfold same_current_plan in H2; simpl in H2;
    [|rewrite get_current_plan_eq, H2; reflexivity|].
  2:{ eapply create_initial_plan_ends. exact Hc. }
  pose proof (scp_execute_planning_iterations fuel p0 ta s2) as H3.
  pose proof (execute_planning_iterations_ends fuel p0 ta s2 Hfuel) as H3'.
  destruct (_execute_planning_iterations ollama json_loads clock fuel p0 ta s2)
    as [p1 s3|e s3|]; unfold same_current_plan in H3; simpl in H3; [| |done].
  2:{ rewrite get_current_plan_eq, H3, H2. reflexivity. }
  pose proof (finalize_plan_current_plan p1 s3) as H4.
  destruct (_finalize_plan clock py_str format_percent p1 s3) as [p2 s4|e s4|];
    [| |done].
  - simpl. rewrite get_current_plan_eq, H4. reflexivity.
  - rewrite get_current_plan_eq, H4, H3, H2. reflexivity.
Qed.

End CurrentPlan.

(** ** The planning history *)

Section History.
Import Py ReAct.

Variable ollama : nat -> http_outcome.
Variable json_loads : string -> option pyval.
Variable clock : nat -> datetime.

Lemma planning_cycle_history (p : Plan) (ta : pyval) (s : Agent) :
  match planning_cycle ollama json_loads clock p ta s with
  | Ok (p', b) s' =>
      planning_iteration s' = planning_iteration s /\
      exists e, planning_history s' = planning_history s ++ [e] /\
                entry_succeeded e /\ h_iteration e = planning_iteration s
  | Raise e s' =>
      planning_iteration s' = planning_iteration s /\
      planning_history s' = planning_history s
  | OutOfFuel => False
  end.
Proof.
  pose proof (planning_cycle_spec ollama json_loads clock p ta s) as H.
  destruct (planning_cycle ollama json_loads clock p ta s) as [[p' b] s'|e s'|];
    [| |done].
  - destruct H as (_ & _ & _ & (c & _ & Hc) & Hst & Hit & _ & _ & _ & _
                   & (r & t & Hr & Hh) & _).
    split; [exact Hit|]. eexists. split; [exact Hh|].
    split; [|reflexivity].
    unfold entry_succeeded; simpl. split; [exact Hr|]. split; [exact Hst|].
    eexists. split; [exact Hc|]. apply py_min_le_1.
  - destruct H as (Hit & _ & Hh & _). done.
Qed.

Lemma while_planning_history (fuel : nat) :
  forall (p : Plan) (ta : pyval) (s : Agent),
  (planning_iteration s <= MAX_PLANNING_ITERATIONS)%nat ->
  match final_state (while_planning ollama json_loads clock fuel p ta s) with
  | Some s' =>
      exists es, planning_history s' = planning_history s ++ es /\
                 Forall entry_succeeded es /\
                 map h_iteration es = seq (planning_iteration s) (length es) /\
                 (planning_iteration s + length es <= MAX_PLANNING_ITERATIONS)%nat
  | None => True
  end.
Proof.
  induction fuel as [|fuel IH]; intros p ta s Hit; [exact I|].
  rewrite while_planning_unfold.
  destruct (Nat.ltb_spec (planning_iteration s) MAX_PLANNING_ITERATIONS) as [Hlt|Hge].
  2:{ simpl. exists []. rewrite app_nil_r.
      split; [done|]. split; [constructor|]. split; [done|simpl; lia]. }
  pose proof (planning_cycle_history p ta s) as Hc.
  destruct (planning_cycle ollama json_loads clock p ta s) as [[p' b] s'|e s'|];
    [| |done].
  2:{ simpl. destruct Hc as (_ & Hh). exists []. rewrite app_nil_r.
      split; [done|]. split; [constructor|]. split; [done|simpl; lia]. }
  destruct Hc as (Hit' & e & Hh & He & Hn).
  destruct b.
  { simpl. exists [e].
    split; [done|]. split; [constructor; [done|constructor]|].
    split; [simpl; rewrite Hn; reflexivity|simpl; lia]. }
  specialize (IH p' ta (with_iteration (planning_iteration s' + 1) s')).
  simpl in IH. lapply IH; [clear IH; intros IH|lia].
  destruct (final_state (while_planning ollama json_loads clock fuel p' ta
                           (with_iteration (planning_iteration s' + 1) s')))
    as [s2|]; [|exact I].
  destruct IH as (es & Hh2 & Hes & Hnum & Hle).
  exists (e :: es). rewrite Hh2, Hh, <- app_assoc. simpl.
  split; [done|]. split; [constructor; done|].
  split; [|lia].
  rewrite Hn, Hnum, Hit'. f_equal. f_equal. lia.
Qed.


Lemma create_initial_plan_history (ta : pyval) (s : Agent) :
  match final_state (_create_initial_plan clock ta s) with
  | Some s' => planning_history s' = planning_history s
  | None => False
  end.
Proof.
  unfold _create_initial_plan, bind, py_get.
  destruct ta as [| | | | |d]; simpl; try reflexivity.
  pose proof (lookup_template_spec
                (dict_get d "task_type" (PStr "general_weather_planning")) s) as Ht.
  destruct (lookup_template _ s) as [l s1|e s1|]; [| |done].
  - destruct Ht as (-> & _). reflexivity.
  - destruct Ht as (-> & _). reflexivity.
Qed.

Variable py_str : pyval -> string.
Variable format_percent : Q -> string.

Lemma finalize_plan_history (p : Plan) (s : Agent) :
  match final_state (_finalize_plan clock py_str format_percent p s) with
  | Some s' => planning_history s' = planning_history s
  | None => False
  end.
Proof.
  unfold _finalize_plan, _generate_plan_summary, format_confidence, bind. simpl.
  destruct (as_number (confidence p)); simpl; [reflexivity|].
  destruct (confidence p); reflexivity.
Qed.

(** X3 - A planning call, whether it returns or raises, only appends to the
    planning history: what [get_planning_history] returned before the call
    is a prefix of what it returns after it, with at most five new entries.
    The history is never cleared, so an agent that plans several tasks
    accumulates the entries of all of them. *)
Theorem planning_history_is_append_only (fuel : nat) (task : string) (s : Agent) :
  (MAX_PLANNING_ITERATIONS < fuel)%nat ->
  exists s' es,
    final_state (plan_weather_activity ollama json_loads clock py_str
                   format_percent fuel task s) = Some s' /\
    get_planning_history s' = Ok (planning_history s ++ es) s' /\
    (length es <= 5)%nat.
Proof.
  intros Hfuel.
  unfold plan_weather_activity, bind.
  destruct (analyze_task_state ollama json_loads task s) as [ta ->].
  pose proof (create_initial_plan_history ta (bump_calls s)) as H2.
  destruct (_create_initial_plan clock ta (bump_calls s)) as [p0 s2|e s2|];
    simpl in H2; [| |done].
  2:{ exists s2, []. rewrite app_nil_r. simpl.
      split; [done|]. split; [|lia]. unfold get_planning_history, bind. simpl.
      rewrite H2. reflexivity. }
  pose proof (while_planning_history fuel p0 ta (with_iteration 0 s2)) as H3.
  destruct (while_planning_bound ollama json_loads clock fuel p0 ta
              (with_iteration 0 s2)) as (s3 & Hf & _);
    [unfold MAX_PLANNING_ITERATIONS in *; simpl; lia|].
  rewrite Hf in H3. rewrite <- execute_planning_iterations_unfold in Hf.
  destruct H3 as (es & Hh & _ & _ & Hle); [simpl; lia|].
  simpl in Hh, Hle. unfold MAX_PLANNING_ITERATIONS in Hle.
  destruct (_execute_planning_iterations ollama json_loads clock fuel p0 ta s2)
    as [p1 s3'|e s3'|]; simpl in Hf; [| |done]; injection Hf as ->.
  2:{ exists s3, es. simpl. split; [done|]. split; [|lia].
      unfold get_planning_history, bind. simpl. rewrite Hh, H2. reflexivity. }
  pose proof (finalize_plan_history p1 s3) as H4.
  destruct (_finalize_plan clock py_str format_percent p1 s3) as [p2 s4|e s4|];
    simpl in H4; [| |done].
  - exists s4, es. simpl. split; [done|]. split; [|lia].
    unfold get_planning_history, bind. simpl. rewrite H4, Hh, H2. reflexivity.
  - exists s4, es. simpl. split; [done|]. split; [|lia].
    unfold get_planning_history, bind. simpl. rewrite H4, Hh, H2. reflexivity.
Qed.

End History.

(** ** The generation endpoint and the result of the loop *)

Section Independence.
Import Py ReAct.

Variable ollama ollama' : nat -> http_outcome.
Variable json_loads json_loads' : string -> option pyval.
Variable clock : nat -> datetime.

Lemma planning_cycle_independent (p : Plan) (ta : pyval) (s : Agent) :
  planning_cycle ollama json_loads clock p ta s
  = planning_cycle ollama' json_loads' clock p ta s.
Proof.
  unfold planning_cycle, bind.
  destruct (reason_state ollama json_loads p ta s) as [v ->].
  destruct (reason_state ollama' json_loads' p ta s) as [v' ->].
  reflexivity.
Qed.

Lemma while_planning_independent (fuel : nat) :
  forall (p : Plan) (ta : pyval) (s : Agent),
  while_planning ollama json_loads clock fuel p ta s
  = while_planning ollama' json_loads' clock fuel p ta s.
Proof.
  induction fuel as [|fuel IH]; intros p ta s; [reflexivity|].
  rewrite !while_planning_unfold, (planning_cycle_independent p ta s).
  destruct (planning_iteration s <? MAX_PLANNING_ITERATIONS)%nat; [|reflexivity].
  destruct (planning_cycle ollama' json_loads' clock p ta s) as [[p' b] s'|e s'|];
    try reflexivity.
  destruct b; [reflexivity|apply IH].
Qed.

(** X4 - The answers of the generation endpoint to the reasoning requests
    have no effect: for two worlds that differ in what the endpoint answers
    (and in how the answers parse), the loop started on the same plan,
    analysis and agent ends in the same way, with the same plan and the same
    agent. *)
Theorem loop_ignores_the_reasoning
  (fuel : nat) (plan : Plan) (task_analysis : pyval) (s : Agent) :
  _execute_planning_iterations ollama json_loads clock fuel plan task_analysis s
  = _execute_planning_iterations ollama' json_loads' clock fuel plan task_analysis s.
Proof.
  rewrite !execute_planning_iterations_unfold. apply while_planning_independent.
Qed.

End Independence.

(** ** When a planning call returns *)

Section Returns.
Import Py ReAct.

Variable ollama : nat -> http_outcome.
Variable json_loads : string -> option pyval.
Variable clock : nat -> datetime.




Variable py_str : pyval -> string.
Variable format_percent : Q -> string.


End Returns.

(** ** What the templates make of a plan *)

Section Templates.
Import Py ReAct.

Variable ollama : nat -> http_outcome.
Variable json_loads : string -> option pyval.
Variable clock : nat -> datetime.








Variable py_str : pyval -> string.
Variable format_percent : Q -> string.



End Templates.

(** ** The demonstration in [main] *)

Section Main.
Import Py ReAct.

Variable ollama : nat -> http_outcome.
Variable json_loads : string -> option pyval.
Variable clock : nat -> datetime.
Variable py_str : pyval -> string.
Variable format_percent : Q -> string.
Variable tags : http_outcome.





End Main.

(** ** The generation endpoint and the analysis of the task *)

Section Endpoint.
Import Py ReAct.

Variable ollama : nat -> http_outcome.
Variable json_loads : string -> option pyval.

(** X8 - [_call_ollama_api] makes exactly one request.  It returns only for
    an answer with status 200 whose body is a JSON object, and then returns
    the value under ["response"], or the empty string when the key is
    missing.  Everything else leaves it as a plain [Exception]: the
    exceptions of the HTTP library, a body that is not JSON or not an
    object, and also its own exception for a status other than 200, which
    its last handler catches and wraps a second time. *)
Theorem call_ollama_api_raises_only_exception (s : Agent) :
  match _call_ollama_api ollama s with
  | Ok v s' =>
      s' = bump_calls s /\
      exists d t, ollama (ReAct.ollama_calls s) = HttpResponse 200 (Some (PDict d)) t /\
                  v = dict_get d "response" (PStr "")
  | Raise e s' =>
      s' = bump_calls s /\
      call_raises (ollama (ReAct.ollama_calls s)) /\
      (exists msg, e = Exception msg) /\
      (forall c b t, ollama (ReAct.ollama_calls s) = HttpResponse c b t ->
         c <> 200%nat ->
         e = Exception ("Error calling Ollama API: Ollama API error: " +:+
                        string_of_nat c +:+ " - " +:+ t))
  | OutOfFuel => False
  end.
Proof.
  unfold _call_ollama_api, try_except, bind, requests_post, bump_calls; simpl.
  destruct (ollama (ReAct.ollama_calls s)) as [c b t| |]; simpl.
  - destruct (Nat.eqb_spec c 200) as [->|Hc]; simpl.
    + destruct b as [[| | | | |d]|]; simpl;
        try (split; [reflexivity|]; split;
             [first [apply cr_body_not_json | apply cr_body_not_dict; congruence]|];
             split; [eauto|]; intros c' b' t' [= <- _ _] Hne; congruence).
      split; [reflexivity|]. eauto.
    + split; [reflexivity|]. split; [apply cr_status; exact Hc|].
      split; [eauto|]. intros c' b' t' [= <- _ <-] _. reflexivity.
  - split; [reflexivity|]. split; [constructor|]. split; [eauto|].
    intros c b t H. discriminate H.
  - split; [reflexivity|]. split; [constructor|]. split; [eauto|].
    intros c b t H. discriminate H.
Qed.


Variable clock : nat -> datetime.
Variable py_str : pyval -> string.
Variable format_percent : Q -> string.

(** X11 - A planning call that returns has made exactly six requests to the
    generation endpoint: one for the analysis of the task and one for the
    reasoning of each of the five cycles. *)
Theorem planning_call_makes_six_requests
  (fuel : nat) (task : string) (s : Agent) (p : Plan) (s' : Agent) :
  (MAX_PLANNING_ITERATIONS < fuel)%nat ->
  plan_weather_activity ollama json_loads clock py_str format_percent fuel task s
    = Ok p s' ->
  ReAct.ollama_calls s' = (ReAct.ollama_calls s + 6)%nat.
Proof.
  intros Hfuel Hrun.
  unfold plan_weather_activity, bind in Hrun.
  destruct (analyze_task_state ollama json_loads task s) as [ta Hta].
  rewrite Hta in Hrun.
  destruct (_create_initial_plan clock ta (bump_calls s)) as [p0 s1|e s1|] eqn:Hcreate;
    [|done|done].
  pose proof (iterations_on_initial_plan ollama json_loads clock fuel _ _ _ _
                Hfuel Hcreate) as Hloop.
  apply create_initial_plan_spec in Hcreate
    as (_ & _ & Hcs & _ & _ & _ & _ & _ & Hcalls0).
  destruct (_execute_planning_iterations ollama json_loads clock fuel p0 ta s1)
    as [p1 s2|e s2|]; [|done|done].
  destruct Hloop as (_ & _ & Hcalls & _ & _ & _ & _ & es & _ & _ & _ & _ & Hpos).
  rewrite Hcs, Nat.sub_0_r in Hcalls, Hpos.
  destruct Hpos as (_ & (c & Hc) & _); [unfold MAX_PLANNING_ITERATIONS; lia|].
  destruct (finalize_plan_spec clock py_str format_percent p1 s2 c Hc)
    as (p2 & s3 & Hfin & _ & _ & _ & _ & _ & _ & _ & Hcalls2 & _).
  rewrite Hfin in Hrun. injection Hrun as <- <-.
  rewrite Hcalls2, Hcalls. simpl. rewrite Hcalls0. simpl.
  unfold MAX_PLANNING_ITERATIONS. lia.
Qed.

End Endpoint.

(** ** The runs of the fixed-automation reporters *)

Section WeatherRun.
Import Py Reporter WeatherAgent.

Variable OUTPUT_DIR : string.
Variable requests : nat -> http_outcome.
Variable clock : nat -> datetime.
Variable py_str : pyval -> string.
Variable str_title : string -> string.
Variable str_strip : string -> string.





Lemma weather_call_ollama_state (w : World) :
  (exists v, WeatherAgent._call_ollama_api requests w = Ok v (after_request w)) \/
  (exists e, WeatherAgent._call_ollama_api requests w = Raise e (after_request w)).
Proof.
  unfold WeatherAgent._call_ollama_api, try_except, bind, http_request,
    after_request; simpl.
  destruct (requests (requests_made w)) as [c b t| |]; simpl; eauto.
  destruct (Nat.eqb c 200); simpl; eauto.
  destruct b as [[]|]; simpl; eauto.
Qed.

Lemma generate_report_outcome (parsed_data : ParsedData) (w : World) :
  match pd_description parsed_data with
  | PStr d =>
      exists report,
        generate_report requests py_str str_title str_strip parsed_data w
          = Ok report (after_request w) /\
        (report = report_head py_str parsed_data (str_title d) +:+
                  "Report generated by Fixed Automation Weather Agent" +:+ nl
         \/ exists a,
              report = report_head py_str parsed_data (str_title d) +:+
                       "AI Weather Summary:" +:+ nl +:+ a +:+ nl +:+ nl +:+
                       "Report generated by Fixed Automation Weather Agent (Enhanced with Ollama)"
                       +:+ nl)
  | _ =>
      generate_report requests py_str str_title str_strip parsed_data w
        = Raise (AttributeError "title") (after_request w)
  end.
Proof.
  unfold generate_report, try_except, bind.
  destruct (weather_call_ollama_state w) as [[v ->]|[e ->]].
  - unfold enhanced_report, basic_report, bind, title, strip.
    destruct (pd_description parsed_data); simpl; try reflexivity.
    destruct v; simpl; eauto.
  - unfold basic_report, bind, title.
    destruct (pd_description parsed_data); simpl; eauto.
Qed.

(** X12 - [generate_report] makes one request and, when the description of
    the weather is a string, always returns a report: the enhanced one or,
    after any failure of the enhancement, the basic one.  When the
    description is anything else, the fallback fails as the enhanced report
    did, and [generate_report] raises the [AttributeError] of [.title()]. *)
Theorem generate_report_needs_a_text_description
  (parsed_data : ParsedData) (w : World) :
  (forall d, pd_description parsed_data = PStr d ->
     exists report,
       generate_report requests py_str str_title str_strip parsed_data w
         = Ok report (after_request w) /\
       (report = report_head py_str parsed_data (str_title d) +:+
                 "Report generated by Fixed Automation Weather Agent" +:+ nl
        \/ exists a,
             report = report_head py_str parsed_data (str_title d) +:+
                      "AI Weather Summary:" +:+ nl +:+ a +:+ nl +:+ nl +:+
                      "Report generated by Fixed Automation Weather Agent (Enhanced with Ollama)"
                      +:+ nl)) /\
  ((forall d, pd_description parsed_data <> PStr d) ->
     generate_report requests py_str str_title str_strip parsed_data w
       = Raise (AttributeError "title") (after_request w)).
Proof.
  pose proof (generate_report_outcome parsed_data w) as H.
  split.
  - intros d Hd. rewrite Hd in H. exact H.
  - intros Hn. destruct (pd_description parsed_data); try exact H.
    exfalso. eapply Hn. reflexivity.
Qed.


End WeatherRun.

Section DinoRun.
Import Py Reporter.

Variable OUTPUT_DIR : string.
Variable requests : nat -> http_outcome.
Variable clock : nat -> datetime.
Variable py_str : pyval -> string.
Variable str_strip : string -> string.






End DinoRun.

(** ** The completed steps of earlier plans *)

Section EarlierPlans.
Import Py ReAct.

Variable ollama : nat -> http_outcome.
Variable json_loads : string -> option pyval.
Variable clock : nat -> datetime.

Lemma other_lists_kept_refl (k : loc) (s : Agent) : other_lists_kept k s s.
Proof. split; done. Qed.

Lemma other_lists_kept_trans (k : loc) (s1 s2 s3 : Agent) :
  other_lists_kept k s1 s2 -> other_lists_kept k s2 s3 -> other_lists_kept k s1 s3.
Proof.
  intros (H1 & H2) (H3 & H4). split; [congruence|].
  intros l Hl. rewrite H4, H2; done.
Qed.

Lemma other_lists_kept_insert (k : loc) (v : list CompletedStep) (s s' : Agent) :
  heap s' = <[ k := v ]> (heap s) -> other_lists_kept k s s'.
Proof.
  intros H. unfold other_lists_kept. rewrite H.
  split; [apply length_insert|].
  intros l Hl. apply list_lookup_insert_ne. congruence.
Qed.

Lemma other_lists_kept_same_heap (k : loc) (s s' : Agent) :
  heap s' = heap s -> other_lists_kept k s s'.
Proof. intros H. unfold other_lists_kept. rewrite H. done. Qed.

Lemma planning_cycle_heap (p : Plan) (ta : pyval) (s : Agent) :
  match final_state (planning_cycle ollama json_loads clock p ta s) with
  | Some s' => other_lists_kept (completed_steps p) s s'
  | None => False
  end.
Proof.
  unfold planning_cycle, bind.
  destruct (reason_state ollama json_loads p ta s) as [v ->].
  destruct (determine_next_action_spec p v (bump_calls s))
    as (a & -> & [(Hlt & step & Hs & ->) | (Hge & ->)]).
  2:{ rewrite execute_action_finalize_plan. simpl.
      apply other_lists_kept_same_heap. reflexivity. }
  rewrite execute_action_execute_step.
  match goal with
  | |- context [_execute_planning_step clock ?a p ta ?s1] =>
      pose proof (execute_planning_step_spec clock step (current_step p) "high"
                    p ta s1) as Hstep;
      destruct (_execute_planning_step clock a p ta s1) as [[r p1] s2|e s2|]
  end; [| |done].
  2:{ destruct Hstep as (_ & -> & _). simpl.
      apply other_lists_kept_same_heap. reflexivity. }
  destruct Hstep as (_ & _ & _ & _ & _ & _ & _ & _ & _ & _ & x & _ & _ & _ & Hheap).
  simpl in Hheap.
  assert (H1 : other_lists_kept (completed_steps p) s s2).
  { eapply other_lists_kept_insert. exact Hheap. }
  pose proof (update_plan_spec clock p1 r s2) as Hup.
  destruct (_update_plan_based_on_result clock p1 r s2) as [p2 s3|e s3|]; [| |done].
  2:{ destruct Hup as (_ & -> & _). simpl. exact H1. }
  destruct Hup as (_ & _ & _ & _ & _ & _ & _ & _ & _ & Hheap' & _).
  assert (H2 : other_lists_kept (completed_steps p) s s3).
  { destruct H1 as (L & E). split; rewrite Hheap'; done. }
  pose proof (is_planning_complete_spec p2 s3) as Hic.
  destruct (_is_planning_complete p2 s3) as [b s4|e s4|]; [| |done].
  - destruct Hic as (-> & _). simpl. exact H2.
  - destruct Hic as (_ & ->). simpl. exact H2.
Qed.

Lemma while_planning_heap (fuel : nat) :
  forall (p : Plan) (ta : pyval) (s : Agent),
  match final_state (while_planning ollama json_loads clock fuel p ta s) with
  | Some s' => other_lists_kept (completed_steps p) s s'
  | None => True
  end.
Proof.
  induction fuel as [|fuel IH]; intros p ta s; [exact I|].
  rewrite while_planning_unfold.
  destruct (planning_iteration s <? MAX_PLANNING_ITERATIONS)%nat;
    [|simpl; apply other_lists_kept_refl].
  pose proof (planning_cycle_heap p ta s) as Hc.
  pose proof (planning_cycle_spec ollama json_loads clock p ta s) as Hspec.
  destruct (planning_cycle ollama json_loads clock p ta s) as [[p' b] s'|e s'|];
    simpl in Hc; [| exact Hc | done].
  destruct b; [exact Hc|].
  destruct Hspec as (_ & (_ & _ & Hloc & _) & _).
  specialize (IH p' ta (with_iteration (planning_iteration s' + 1) s')).
  destruct (final_state (while_planning ollama json_loads clock fuel p' ta
                           (with_iteration (planning_iteration s' + 1) s')))
    as [s2|]; [|exact I].
  rewrite Hloc in IH.
  eapply other_lists_kept_trans; [exact Hc|exact IH].
Qed.

Lemma create_initial_plan_heap (ta : pyval) (s : Agent) :
  match _create_initial_plan clock ta s with
  | Ok p s' => heap s' = heap s ++ [[]] /\ completed_steps p = length (heap s)
  | Raise e s' => heap s' = heap s
  | OutOfFuel => False
  end.
Proof.
  unfold _create_initial_plan, bind, py_get.
  destruct ta as [| | | | |d]; simpl; try reflexivity.
  pose proof (lookup_template_spec
                (dict_get d "task_type" (PStr "general_weather_planning")) s) as Ht.
  destruct (lookup_template _ s) as [l s1|e s1|]; [| |done].
  - destruct Ht as (-> & _). simpl. done.
  - destruct Ht as (-> & _). reflexivity.
Qed.

Variable py_str : pyval -> string.
Variable format_percent : Q -> string.

Lemma finalize_plan_heap (p : Plan) (s : Agent) :
  match final_state (_finalize_plan clock py_str format_percent p s) with
  | Some s' => heap s' = heap s
  | None => False
  end.
Proof.
  unfold _finalize_plan, _generate_plan_summary, format_confidence, bind. simpl.
  destruct (as_number (confidence p)); simpl; [reflexivity|].
  destruct (confidence p); reflexivity.
Qed.

(** X15 - A planning call, whether it returns or raises, leaves the lists of
    completed steps that exist when it starts as they are: the new plan gets
    a list of its own, so the completed steps of the plans of earlier calls,
    and of the history entries that share them, do not change. *)
Theorem planning_keeps_earlier_completed_steps
  (fuel : nat) (task : string) (s : Agent) :
  (MAX_PLANNING_ITERATIONS < fuel)%nat ->
  exists s',
    final_state (plan_weather_activity ollama json_loads clock py_str
                   format_percent fuel task s) = Some s' /\
    (length (heap s) <= length (heap s'))%nat /\
    forall l, (l < length (heap s))%nat -> deref (heap s') l = deref (heap s) l.
Proof.
  intros Hfuel.
  unfold plan_weather_activity, bind.
  destruct (analyze_task_state ollama json_loads task s) as [ta ->].
  pose proof (create_initial_plan_heap ta (bump_calls s)) as H2.
  destruct (_create_initial_plan clock ta (bump_calls s)) as [p0 s2|e s2|];
    [| |done].
  2:{ simpl in *. exists s2. rewrite H2. done. }
  destruct H2 as (Hheap & Hloc). simpl in Hheap, Hloc.
  pose proof (while_planning_heap fuel p0 ta (with_iteration 0 s2)) as H3.
  destruct (while_planning_bound ollama json_loads clock fuel p0 ta
              (with_iteration 0 s2)) as (s3 & Hf & _);
    [unfold MAX_PLANNING_ITERATIONS in *; simpl; lia|].
  rewrite Hf in H3. rewrite <- execute_planning_iterations_unfold in Hf.
  destruct H3 as (Hlen & Hother). simpl in Hlen, Hother.
  assert (Hkept : (length (heap s) <= length (heap s3))%nat /\
                  forall l, (l < length (heap s))%nat ->
                            deref (heap s3) l = deref (heap s) l).
  { split; [rewrite Hlen, Hheap, length_app; simpl; lia|].
    intros l Hl. unfold deref.
    rewrite Hother by lia. rewrite Hheap, lookup_app_l by exact Hl. reflexivity. }
  destruct (_execute_planning_iterations ollama json_loads clock fuel p0 ta s2)
    as [p1 s3'|e s3'|]; simpl in Hf; [| |done]; injection Hf as ->.
  2:{ exists s3. simpl. done. }
  pose proof (finalize_plan_heap p1 s3) as H4.
  destruct (_finalize_plan clock py_str format_percent p1 s3) as [p2 s4|e s4|];
    simpl in H4; [| |done]; exists s4; simpl; rewrite H4; done.
Qed.

End EarlierPlans.

(** ** Worked examples of the further properties *)

Section FurtherExamples.
Import Py ReAct.

(** X1 on a new agent with the generation endpoint down. *)
Lemma current_plan_after_planning_witness :
  match plan_weather_activity offline no_json frozen_clock no_text no_percent 6
          weekend_task new_agent with
  | Ok p s' => get_current_plan s' = Ok (Some p) s'
  | Raise e s' => get_current_plan s' = Ok (current_plan new_agent) s'
  | OutOfFuel => False
  end.
Proof.
  apply (current_plan_after_planning offline no_json frozen_clock no_text
           no_percent 6 weekend_task new_agent).
  unfold MAX_PLANNING_ITERATIONS. lia.
Defined.


(** X3 on a new agent with the generation endpoint down. *)
Lemma planning_history_is_append_only_witness :
  exists s' es,
    final_state (plan_weather_activity offline no_json frozen_clock no_text
                   no_percent 6 weekend_task new_agent) = Some s' /\
    get_planning_history s' = Ok (planning_history new_agent ++ es) s' /\
    (length es <= 5)%nat.
Proof.
  apply (planning_history_is_append_only offline no_json frozen_clock no_text
           no_percent 6 weekend_task new_agent).
  unfold MAX_PLANNING_ITERATIONS. lia.
Defined.





(** X11 on a new agent with the generation endpoint down. *)
Lemma planning_call_makes_six_requests_witness :
  match plan_weather_activity offline no_json frozen_clock no_text no_percent 6
          weekend_task new_agent with
  | Ok p s' => ReAct.ollama_calls s' = (ReAct.ollama_calls new_agent + 6)%nat
  | _ => False
  end.
Proof.
  destruct (plan_weather_activity offline no_json frozen_clock no_text no_percent 6
              weekend_task new_agent) as [p s'|e s'|] eqn:Hrun.
  - apply (planning_call_makes_six_requests offline no_json frozen_clock no_text
             no_percent 6 weekend_task new_agent p s').
    + unfold MAX_PLANNING_ITERATIONS. lia.
    + exact Hrun.
  - vm_compute in Hrun. discriminate Hrun.
  - vm_compute in Hrun. discriminate Hrun.
Defined.

(** X12 after the weather service has answered and the generation endpoint is
    down: with a description that is a string, and with one that is a
    number. *)
Lemma generate_report_needs_a_text_description_witness :
  (exists report,
     WeatherAgent.generate_report WeatherAgent.ollama_down Reporter.no_text
       Reporter.same_text Reporter.same_text WeatherAgent.parsed_sample
       Reporter.world_after_parse
       = Ok report (Reporter.after_request Reporter.world_after_parse)) /\
  WeatherAgent.generate_report WeatherAgent.ollama_down Reporter.no_text
    Reporter.same_text Reporter.same_text WeatherAgent.parsed_numeric_description
    Reporter.world_after_parse
  = Raise (AttributeError "title")
      (Reporter.after_request Reporter.world_after_parse).
Proof.
  split.
  - destruct (proj1 (generate_report_needs_a_text_description
                       WeatherAgent.ollama_down Reporter.no_text Reporter.same_text
                       Reporter.same_text WeatherAgent.parsed_sample
                       Reporter.world_after_parse) "light rain" eq_refl)
      as (report & Hrun & _).
    exists report. exact Hrun.
  - apply (proj2 (generate_report_needs_a_text_description
                    WeatherAgent.ollama_down Reporter.no_text Reporter.same_text
                    Reporter.same_text WeatherAgent.parsed_numeric_description
                    Reporter.world_after_parse)).
    intros d. simpl. discriminate.
Defined.

(** X15 on an agent whose store holds the completed steps of an earlier
    plan. *)
Lemma planning_keeps_earlier_completed_steps_witness :
  exists s',
    final_state (plan_weather_activity offline no_json frozen_clock no_text
                   no_percent 6 weekend_task agent_with_earlier_plan) = Some s' /\
    (length (heap agent_with_earlier_plan) <= length (heap s'))%nat /\
    forall l, (l < length (heap agent_with_earlier_plan))%nat ->
              deref (heap s') l = deref (heap agent_with_earlier_plan) l.
Proof.
  apply (planning_keeps_earlier_completed_steps offline no_json frozen_clock
           no_text no_percent 6 weekend_task agent_with_earlier_plan).
  unfold MAX_PLANNING_ITERATIONS. lia.
Defined.

End FurtherExamples.
